(** * DynamicAgentRuntime (src/agents/dynamic.py): a shallow embedding.

    The turn orchestrator, its prompt layers (knowledge, RAG, memory), the
    tool catalog and the tool dispatcher.  Python dictionaries coming from
    the configuration are records whose [option] fields stand for keys that
    may be absent ([dict.get] with a default); the tool map built by
    [_build_tool_map] is a [gmap string].  The external collaborators
    (retriever, user lookup, memory store, tool executor, LLM client,
    agentic loop) are oracles; every call to them is written to a trace,
    together with the events emitted through [ctx.emit]. *)

From Stdlib Require Import String Ascii List ZArith.
From stdpp Require Import base gmap strings list pretty.

Import ListNotations.
Set Warnings "-register-all".

(* ------------------------------------------------------------------ *)
(** ** Python values used by the module *)

(** A JSON value, as produced by [json.dumps] and passed as tool
    arguments. *)
Inductive json :=
| JNull
| JBool (b : bool)
| JInt (z : Z)
| JStr (s : string)
| JArr (l : list json)
| JObj (fs : list (string * json)).

Definition chr (n : nat) : string := String (ascii_of_nat n) EmptyString.
Definition nl : string := chr 10.
Definition dq : string := chr 34.
Definition bs : string := chr 92.

(** Python truthiness of an optional string ([None] and the empty string
    are false). *)
Definition truthy (o : option string) : bool :=
  match o with
  | Some s => negb (String.eqb s EmptyString)
  | None => false
  end.

(** [x or y] on optional strings. *)
Definition py_or (x y : option string) : option string :=
  if truthy x then x else y.

Definition hex_digit (n : nat) : string :=
  chr (if Nat.ltb n 10 then 48 + n else 87 + n).

(** [json.encoder.py_encode_basestring_ascii], one character at a time
    (the default [ensure_ascii=True]: everything outside the printable
    range [' ' .. '~'] is written as a [\uXXXX] escape). *)
Definition escape_char (c : ascii) : string :=
  let n := nat_of_ascii c in
  if Nat.eqb n 34 then bs +:+ dq
  else if Nat.eqb n 92 then bs +:+ bs
  else if Nat.eqb n 10 then bs +:+ "n"
  else if Nat.eqb n 13 then bs +:+ "r"
  else if Nat.eqb n 9 then bs +:+ "t"
  else if Nat.eqb n 8 then bs +:+ "b"
  else if Nat.eqb n 12 then bs +:+ "f"
  else if andb (Nat.leb 32 n) (Nat.leb n 126) then String c EmptyString
  else bs +:+ "u00" +:+ hex_digit (n / 16) +:+ hex_digit (n mod 16).

Fixpoint escape (s : string) : string :=
  match s with
  | EmptyString => EmptyString
  | String c s' => escape_char c +:+ escape s'
  end.

Definition encode_str (s : string) : string := dq +:+ escape s +:+ dq.

(** [json.dumps] with its default separators [", "] and [": "]. *)
Fixpoint dumps (j : json) : string :=
  match j with
  | JNull => "null"
  | JBool true => "true"
  | JBool false => "false"
  | JInt z => pretty z
  | JStr s => encode_str s
  | JArr l => "[" +:+ String.concat ", " (map dumps l) +:+ "]"
  | JObj fs =>
      "{" +:+ String.concat ", "
        (map (fun kv => encode_str (fst kv) +:+ ": " +:+ dumps (snd kv)) fs)
      +:+ "}"
  end.

(** [str.isspace] on the characters a string can hold here. *)
Definition is_space (c : ascii) : bool :=
  let n := nat_of_ascii c in
  orb (andb (Nat.leb 9 n) (Nat.leb n 13))
  (orb (andb (Nat.leb 28 n) (Nat.leb n 32))
  (orb (Nat.eqb n 133) (Nat.eqb n 160))).

Fixpoint lstrip (s : string) : string :=
  match s with
  | EmptyString => EmptyString
  | String c s' => if is_space c then lstrip s' else s
  end.

Fixpoint rev_str (s : string) (acc : string) : string :=
  match s with
  | EmptyString => acc
  | String c s' => rev_str s' (String c acc)
  end.

(** [str.strip()]. *)
Definition strip (s : string) : string :=
  rev_str (lstrip (rev_str (lstrip s) EmptyString)) EmptyString.

(** [dict.get(k)] on a JSON object (keys of a dict are unique). *)
Fixpoint assoc (k : string) (fs : list (string * json)) : option json :=
  match fs with
  | [] => None
  | (k', v) :: fs' => if String.eqb k k' then Some v else assoc k fs'
  end.

(* ------------------------------------------------------------------ *)
(** ** Configuration and run context *)

(** A knowledge source of [config["knowledge"]]. *)
Record knowledge := {
  k_name : option string;
  k_content : option string;
  k_inclusion_mode : option string;
  k_rag_status : option string   (* k["rag"]["status"] *)
}.

(** [_build_knowledge_context]: the loop over [config.get("knowledge", [])]
    collecting [parts], then ["\n\n".join(parts)]. *)
Fixpoint knowledge_parts (ks : list knowledge) (parts : list string)
  : list string :=
  match ks with
  | [] => parts
  | k :: ks' =>
      if bool_decide (k_inclusion_mode k = Some "always") then
        if truthy (k_content k) then
          let content := default EmptyString (k_content k) in
          let name := default "Knowledge" (k_name k) in
          knowledge_parts ks' (parts ++ ["## " +:+ name +:+ nl +:+ content])
        else knowledge_parts ks' parts
      else knowledge_parts ks' parts
  end.

Definition build_knowledge_context (ks : list knowledge) : string :=
  String.concat (nl +:+ nl) (knowledge_parts ks []).

(** A tool of [config["tools"]]: its ["type"], its ["function"] and the
    execution metadata ["_meta"]. *)
Record function_spec := {
  fn_name : option string;
  fn_fields : list (string * json)   (* description, parameters, ... *)
}.

Definition empty_function : function_spec :=
  {| fn_name := None; fn_fields := [] |}.

Record tool_meta := {
  meta_function_path : option string;
  meta_tool_id : option string;
  meta_is_dynamic : option bool
}.

Definition empty_meta : tool_meta :=
  {| meta_function_path := None; meta_tool_id := None; meta_is_dynamic := None |}.

Record tool_spec := {
  t_type : option string;
  t_function : option function_spec;
  t_meta : option tool_meta
}.

(** An OpenAI-format schema: [{"type": ..., "function": ...}]. *)
Record schema := {
  sc_type : string;
  sc_function : function_spec
}.

(** The execution info stored in the tool map. *)
Record tool_info := {
  ti_function_path : option string;
  ti_tool_id : option string;
  ti_is_dynamic : bool
}.

(** [MEMORY_TOOL_SCHEMA]. *)
Definition MEMORY_TOOL_SCHEMA : schema :=
  {| sc_type := "function";
     sc_function :=
       {| fn_name := Some "remember";
          fn_fields :=
            [("description",
               JStr ("Store information to remember for this conversation. Use this to remember "
                 +:+ "important facts about the user, their preferences, project details, or anything "
                 +:+ "that would be useful to recall in future messages within this conversation. "
                 +:+ "Examples: user's name, their goals, preferences, important context."));
             ("parameters",
               JObj [("type", JStr "object");
                     ("properties",
                       JObj [("key",
                               JObj [("type", JStr "string");
                                     ("description",
                                       JStr ("A short, descriptive key for what you're remembering "
                                         +:+ "(e.g., 'user_name', 'project_goal', 'preferred_language')"))]);
                             ("value",
                               JObj [("type", JStr "string");
                                     ("description", JStr "The information to remember")])]);
                     ("required", JArr [JStr "key"; JStr "value"])])] |} |}.

(** [_build_tool_schemas]. *)
Definition tool_schema (t : tool_spec) : schema :=
  {| sc_type := default "function" (t_type t);
     sc_function := default empty_function (t_function t) |}.

Fixpoint build_tool_schemas_loop (ts : list tool_spec) (schemas : list schema)
  : list schema :=
  match ts with
  | [] => schemas
  | t :: ts' => build_tool_schemas_loop ts' (schemas ++ [tool_schema t])
  end.

Definition build_tool_schemas (ts : list tool_spec) : list schema :=
  build_tool_schemas_loop ts [].

(** [_build_tool_map]. *)
Definition tool_info_of (t : tool_spec) : tool_info :=
  let meta := default empty_meta (t_meta t) in
  {| ti_function_path := meta_function_path meta;
     ti_tool_id := meta_tool_id meta;
     ti_is_dynamic := default false (meta_is_dynamic meta) |}.

Definition tool_name_of (t : tool_spec) : option string :=
  fn_name (default empty_function (t_function t)).

Fixpoint build_tool_map_loop (ts : list tool_spec) (tool_map : gmap string tool_info)
  : gmap string tool_info :=
  match ts with
  | [] => tool_map
  | t :: ts' =>
      match tool_name_of t with
      | Some tool_name =>
          if truthy (Some tool_name)
          then build_tool_map_loop ts' (<[tool_name := tool_info_of t]> tool_map)
          else build_tool_map_loop ts' tool_map
      | None => build_tool_map_loop ts' tool_map
      end
  end.

Definition build_tool_map (ts : list tool_spec) : gmap string tool_info :=
  build_tool_map_loop ts ∅.

(** A chat message ([msg.get("role")], [msg.get("content", "")]). *)
Record message := {
  m_role : option string;
  m_content : option string
}.

(** The effective configuration. *)
Record config := {
  cfg_system_prompt : option string;
  cfg_knowledge : list knowledge;
  cfg_tools : list tool_spec;
  cfg_model : option string;
  cfg_model_settings : list (string * json);
  cfg_memory_enabled : option bool;   (* config["extra"]["memory_enabled"] *)
  cfg_rag_config : option json
}.

(** The [RunContext] fields the runtime reads. *)
Record run_ctx := {
  ctx_input_messages : list message;
  ctx_conversation_id : option string;
  ctx_run_id : string;
  ctx_params_model : option string;
  ctx_user_id : option string          (* ctx.metadata["user_id"] *)
}.

(** A stored memory, as returned by [recall_all]. *)
Record memory := {
  mem_key : string;
  mem_value : string;
  mem_source : string
}.

(** What the agentic loop returns. *)
Record loop_result := {
  lr_final_content : option string;
  lr_messages : list message
}.

Record run_result := {
  rr_final_output : json;
  rr_final_messages : list message
}.

(** [EventType.ASSISTANT_MESSAGE] and [EventType.RUN_FAILED]. *)
Inductive event_type := ASSISTANT_MESSAGE | RUN_FAILED.

(** The trace: every call to an external collaborator, and every event. *)
Inductive act :=
| ARetrieve (agent_id query : string) (rag_config : json)
| AGetUser (user_id : string)
| ANewStore (conversation_id : string)
| ARecallAll
| AFormat
| ARemember (key value source : string)
| AExecute (function_path : string) (arguments : list (string * json))
    (agent_run_id : string) (user_id : option string) (tool_id : option string)
| AGetLlm (model : string)
| ALoop (messages : list message) (tools : option (list schema)) (model : string)
    (max_iterations : nat) (model_settings : list (string * json))
| AToolCall (name : string) (args : list (string * json))
| AEmit (ty : event_type) (payload : json).

(** A raised Python exception, with its [str(e)]. *)
Inductive exn := Exn (msg : string).

Definition str (e : exn) : string := match e with Exn m => m end.

(** What [DynamicToolExecutor.execute] returns: a string, a JSON-serialisable
    value, or some other object (named by its type). *)
Inductive exec_result :=
| XStr (s : string)
| XJson (j : json)
| XOther (type_name : string).

(** One step of the external agentic loop: call a tool, or finish. *)
Inductive loop_action :=
| LCall (name : string) (args : list (string * json))
| LDone (r : exn + loop_result).

(** The external collaborators. *)
Record env (User Store : Type) := {
  agent_id : string;                       (* str(self._definition.id) *)
  DEFAULT_MODEL : string;
  retrieve_for_agent : string -> string -> json -> exn + string;
  get_user : string -> exn + User;         (* User.objects.get(id=...) *)
  new_store : User -> string -> exn + Store;
  recall_all : Store -> exn + list memory;
  format_for_prompt : Store -> list memory -> exn + string;
  store_remember : Store -> string -> string -> string -> exn + unit;
  execute : string -> list (string * json) -> string -> option string ->
            option string -> exn + exec_result;
  get_llm_client_for_model : string -> exn + unit;
  (* the loop sees the messages, the tools, the model, the extra keyword
     arguments [**model_settings] and the tool results so far; it stops on
     its own after [loop_fuel] tool calls *)
  loop_step : list message -> option (list schema) -> string -> list (string * json) ->
              list string -> loop_action;
  loop_fuel : nat;
  loop_stop : list string -> exn + loop_result
}.

Arguments agent_id {_ _}. Arguments DEFAULT_MODEL {_ _}.
Arguments retrieve_for_agent {_ _}. Arguments get_user {_ _}.
Arguments new_store {_ _}. Arguments recall_all {_ _}.
Arguments format_for_prompt {_ _}. Arguments store_remember {_ _}.
Arguments execute {_ _}. Arguments get_llm_client_for_model {_ _}.
Arguments loop_step {_ _}. Arguments loop_fuel {_ _}. Arguments loop_stop {_ _}.

(* ------------------------------------------------------------------ *)
(** ** The effect monad: a trace of actions, and exceptions *)

Definition M (A : Type) : Type := (list act * (exn + A))%type.

Definition ret {A} (a : A) : M A := ([], inr a).
Definition raise {A} (e : exn) : M A := ([], inl e).
Definition lift {A} (o : exn + A) : M A := ([], o).
Definition perform (a : act) : M unit := ([a], inr tt).

Definition bind {A B} (m : M A) (f : A -> M B) : M B :=
  match m with
  | (t, inl e) => (t, inl e)
  | (t, inr a) => let r := f a in (t ++ fst r, snd r)
  end.

(** [try: m except Exception as e: h e]. *)
Definition try_except {A} (m : M A) (h : exn -> M A) : M A :=
  match m with
  | (t, inl e) => let r := h e in (t ++ fst r, snd r)
  | (t, inr a) => (t, inr a)
  end.

Notation "'let*' x ':=' m 'in' k" := (bind m (fun x => k))
  (at level 200, x name, m at level 100, k at level 200).

Definition error_payload (msg : string) : string :=
  dumps (JObj [("error", JStr msg)]).

(* ------------------------------------------------------------------ *)
(** ** The runtime *)

Section Runtime.
Context {User Store : Type}.
Variable E : env User Store.

(** [for msg in reversed(ctx.input_messages): if msg.get("role") == "user"]. *)
Fixpoint first_user (ms : list message) : option message :=
  match ms with
  | [] => None
  | m :: ms' => if bool_decide (m_role m = Some "user") then Some m else first_user ms'
  end.

Definition is_indexed_rag (k : knowledge) : bool :=
  bool_decide (k_inclusion_mode k = Some "rag") && bool_decide (k_rag_status k = Some "indexed").

(** [_retrieve_rag_knowledge]. *)
Definition retrieve_rag_knowledge (cfg : config) (ctx : run_ctx) : M string :=
  let rag_knowledge := List.filter is_indexed_rag (cfg_knowledge cfg) in
  match rag_knowledge with
  | [] => ret EmptyString
  | _ :: _ =>
      let user_query :=
        match first_user (rev (ctx_input_messages ctx)) with
        | Some msg => default EmptyString (m_content msg)
        | None => EmptyString
        end in
      if negb (truthy (Some user_query)) then ret EmptyString
      else
        try_except
          (let rag_config := default (JObj []) (cfg_rag_config cfg) in
           let* _ := perform (ARetrieve (agent_id E) user_query rag_config) in
           lift (retrieve_for_agent E (agent_id E) user_query rag_config))
          (fun _ => ret EmptyString)
  end.

(** [_get_memory_store]. *)
Definition get_memory_store (ctx : run_ctx) : M (option Store) :=
  match ctx_user_id ctx, ctx_conversation_id ctx with
  | Some user_id, Some conversation_id =>
      if negb (truthy (Some user_id)) || negb (truthy (Some conversation_id))
      then ret None
      else
        try_except
          (let* _ := perform (AGetUser user_id) in
           let* user := lift (get_user E user_id) in
           let* _ := perform (ANewStore conversation_id) in
           let* st := lift (new_store E user conversation_id) in
           ret (Some st))
          (fun _ => ret None)
  | _, _ => ret None
  end.

(** [_recall_memories]. *)
Definition recall_memories (st : Store) : M string :=
  try_except
    (let* _ := perform ARecallAll in
     let* memories := lift (recall_all E st) in
     match memories with
     | [] => ret EmptyString
     | _ :: _ =>
         let* _ := perform AFormat in
         lift (format_for_prompt E st memories)
     end)
    (fun _ => ret EmptyString).

(** [args.get(k, "").strip()]: a non-string argument has no [strip]. *)
Definition get_stripped (k : string) (args : list (string * json)) : M string :=
  match default (JStr EmptyString) (assoc k args) with
  | JStr s => ret (strip s)
  | _ => raise (Exn "object has no attribute 'strip'")
  end.

Definition memory_unavailable_payload : string :=
  dumps (JObj [("error", JStr "Memory not available for this conversation");
               ("hint", JStr "Memory requires a logged-in user and conversation context")]).

Definition missing_key_payload : string :=
  error_payload "Missing required parameter: key".

Definition missing_value_payload : string :=
  error_payload "Missing required parameter: value".

Definition remembered_payload (key : string) : string :=
  dumps (JObj [("success", JBool true); ("message", JStr ("Remembered: " +:+ key))]).

(** [_execute_remember_tool]. *)
Definition execute_remember_tool (args : list (string * json)) (memory_store : option Store)
  : M string :=
  match memory_store with
  | None => ret memory_unavailable_payload
  | Some st =>
      let* key := get_stripped "key" args in
      let* value := get_stripped "value" args in
      if negb (truthy (Some key)) then ret missing_key_payload
      else if negb (truthy (Some value)) then ret missing_value_payload
      else
        try_except
          (let* _ := perform (ARemember key value "agent") in
           let* _ := lift (store_remember E st key value "agent") in
           ret (remembered_payload key))
          (fun e => ret (error_payload (str e)))
  end.

Definition no_function_path_payload (tool_name : string) : string :=
  error_payload ("Tool '" +:+ tool_name +:+ "' has no function_path configured").

(** [json.dumps(result)] on what the executor returned. *)
Definition dumps_result (r : exec_result) : M string :=
  match r with
  | XStr s => ret s
  | XJson j => ret (dumps j)
  | XOther ty => raise (Exn ("Object of type " +:+ ty +:+ " is not JSON serializable"))
  end.

(** [_execute_tool]. *)
Definition execute_tool_ (tool_name : string) (tool_args : list (string * json))
    (tool_map : gmap string tool_info) (ctx : run_ctx) : M string :=
  let tool_info := tool_map !! tool_name in
  let function_path := tool_info ≫= ti_function_path in
  if negb (truthy function_path) then ret (no_function_path_payload tool_name)
  else
    let fp := default EmptyString function_path in
    try_except
      (let user_id := ctx_user_id ctx in
       let tool_id := tool_info ≫= ti_tool_id in
       let* _ := perform (AExecute fp tool_args (ctx_run_id ctx) user_id tool_id) in
       let* result := lift (execute E fp tool_args (ctx_run_id ctx) user_id tool_id) in
       dumps_result result)
      (fun e => ret (error_payload (str e))).

(** The closure [execute_tool] defined in [run]. *)
Definition execute_tool (tool_map : gmap string tool_info) (memory_store : option Store)
    (ctx : run_ctx) (tool_name : string) (tool_args : list (string * json)) : M string :=
  if String.eqb tool_name "remember" then execute_remember_tool tool_args memory_store
  else execute_tool_ tool_name tool_args tool_map ctx.

(** [run_agentic_loop] driving the tool callback. *)
Fixpoint drive (fuel : nat) (messages : list message) (tools : option (list schema))
    (model : string) (model_settings : list (string * json))
    (call_tool : string -> list (string * json) -> M string)
    (results : list string) : M loop_result :=
  match fuel with
  | O => lift (loop_stop E results)
  | S fuel' =>
      match loop_step E messages tools model model_settings results with
      | LDone r => lift r
      | LCall name args =>
          let* _ := perform (AToolCall name args) in
          let* out := call_tool name args in
          drive fuel' messages tools model model_settings call_tool (results ++ [out])
      end
  end.

(** The keyword arguments [run] passes to [run_agentic_loop] by name. *)
Definition loop_keywords : list string :=
  ["llm"; "messages"; "tools"; "execute_tool"; "ctx"; "model"; "max_iterations"].

(** The first key of [**model_settings] that is also passed by name. *)
Fixpoint duplicate_keyword (model_settings : list (string * json)) : option string :=
  match model_settings with
  | [] => None
  | (k, _) :: rest =>
      if existsb (String.eqb k) loop_keywords then Some k else duplicate_keyword rest
  end.

(** The call [run_agentic_loop(llm=..., messages=..., tools=...,
    execute_tool=..., ctx=..., model=..., max_iterations=15,
    **model_settings)]: a setting named like one of the explicit keyword
    arguments makes the call itself raise [TypeError]. *)
Definition run_agentic_loop (messages : list message) (tools : option (list schema))
    (model : string) (model_settings : list (string * json))
    (call_tool : string -> list (string * json) -> M string) : M loop_result :=
  match duplicate_keyword model_settings with
  | Some k =>
      raise (Exn ("run_agentic_loop() got multiple values for keyword argument '" +:+ k +:+ "'"))
  | None =>
      let* _ := perform (ALoop messages tools model 15 model_settings) in
      drive (loop_fuel E) messages tools model model_settings call_tool []
  end.

(** Lines 93-122 of [run]: the memory flag, the system prompt and the
    memory store. *)
Definition memory_enabled (cfg : config) : bool := default true (cfg_memory_enabled cfg).

Definition build_system_prompt (cfg : config) (ctx : run_ctx) : M (string * option Store) :=
  let system_prompt := default EmptyString (cfg_system_prompt cfg) in
  let knowledge_context := build_knowledge_context (cfg_knowledge cfg) in
  let system_prompt :=
    if truthy (Some knowledge_context)
    then system_prompt +:+ nl +:+ nl +:+ knowledge_context else system_prompt in
  let* rag_context := retrieve_rag_knowledge cfg ctx in
  let system_prompt :=
    if truthy (Some rag_context)
    then system_prompt +:+ nl +:+ nl +:+ rag_context else system_prompt in
  if memory_enabled cfg then
    let* memory_store := get_memory_store ctx in
    match memory_store with
    | Some st =>
        let* memory_context := recall_memories st in
        let system_prompt :=
          if truthy (Some memory_context)
          then system_prompt +:+ nl +:+ nl +:+ memory_context else system_prompt in
        ret (system_prompt, memory_store)
    | None => ret (system_prompt, memory_store)
    end
  else ret (system_prompt, None).

(** Lines 124-128 of [run]: the system message, then the history. *)
Definition turn_messages (system_prompt : string) (ctx : run_ctx) : list message :=
  (if truthy (Some system_prompt)
   then [{| m_role := Some "system"; m_content := Some system_prompt |}] else [])
  ++ ctx_input_messages ctx.

(** Lines 131-133 of [run]: the schemas, with the memory tool when enabled. *)
Definition run_tools (cfg : config) : list schema :=
  build_tool_schemas (cfg_tools cfg)
  ++ (if memory_enabled cfg then [MEMORY_TOOL_SCHEMA] else []).

(** [tools if tools else None]. *)
Definition tools_arg (tools : list schema) : option (list schema) :=
  match tools with [] => None | _ :: _ => Some tools end.

(** [ctx.params.get("model") or config.get("model") or DEFAULT_MODEL]. *)
Definition select_model (cfg : config) (ctx : run_ctx) : string :=
  default (DEFAULT_MODEL E) (py_or (ctx_params_model ctx) (py_or (cfg_model cfg) None)).

(** [DynamicAgentRuntime.run]. *)
Definition run (cfg : config) (ctx : run_ctx) : M run_result :=
  let* prompt_store := build_system_prompt cfg ctx in
  let '(system_prompt, memory_store) := prompt_store in
  let messages := turn_messages system_prompt ctx in
  let tools := run_tools cfg in
  let tool_map := build_tool_map (cfg_tools cfg) in
  let model := select_model cfg ctx in
  let model_settings := cfg_model_settings cfg in
  let* _ := perform (AGetLlm model) in
  let* _ := lift (get_llm_client_for_model E model) in
  let tools_arg := tools_arg tools in
  try_except
    (let* result :=
       run_agentic_loop messages tools_arg model model_settings
         (execute_tool tool_map memory_store ctx) in
     let* _ :=
       if truthy (lr_final_content result)
       then perform (AEmit ASSISTANT_MESSAGE
                       (JObj [("content", JStr (default EmptyString (lr_final_content result)))]))
       else ret tt in
     ret {| rr_final_output :=
              JObj [("response", match lr_final_content result with
                                 | Some c => JStr c | None => JNull end)];
            rr_final_messages := lr_messages result |})
    (fun e =>
       let* _ := perform (AEmit RUN_FAILED (JObj [("error", JStr (str e))])) in
       raise e).

End Runtime.

(* ------------------------------------------------------------------ *)
(** ** The configuration cache ([config], [refresh_config]) *)

(** The runtime object: its [AgentDefinition] and the cached [_config]. *)
Record agent_runtime (D : Type) := mk_runtime {
  rt_definition : D;
  rt_config : option config
}.
Arguments mk_runtime {_}. Arguments rt_definition {_}. Arguments rt_config {_}.

(** [__init__]. *)
Definition new_runtime {D} (d : D) : agent_runtime D := mk_runtime d None.

(** The [config] property: [get_effective_config] (which may read the
    database [db]) is called only when nothing is cached. *)
Definition runtime_config {D DB} (get_effective_config : D -> DB -> config) (db : DB)
    (rt : agent_runtime D) : agent_runtime D * config :=
  match rt_config rt with
  | Some c => (rt, c)
  | None =>
      let c := get_effective_config (rt_definition rt) db in
      (mk_runtime (rt_definition rt) (Some c), c)
  end.

(** [refresh_config]: reload the definition, drop the cache. *)
Definition refresh_config {D DB} (refresh_from_db : D -> DB -> D) (db : DB)
    (rt : agent_runtime D) : agent_runtime D :=
  mk_runtime (refresh_from_db (rt_definition rt) db) None.

(* ------------------------------------------------------------------ *)
(** ** Branding (src/branding.py) *)

(** [d[k] = v] on a Python dict kept as its (ordered) list of items: an
    existing key keeps its place, a new key goes last. *)
Fixpoint dict_set (k : string) (v : json) (d : list (string * json)) : list (string * json) :=
  match d with
  | [] => [(k, v)]
  | (k', v') :: d' => if String.eqb k k' then (k, v) :: d' else (k', v') :: dict_set k v d'
  end.

(** [{**a, **b}]. *)
Definition dict_merge (a b : list (string * json)) : list (string * json) :=
  fold_left (fun acc kv => dict_set (fst kv) (snd kv) acc) b a.

Definition is_dict (v : json) : bool := match v with JObj _ => true | _ => false end.

Definition obj_fields (v : json) : list (string * json) :=
  match v with JObj fs => fs | _ => [] end.

Definition attr (name value : string) : string := " " +:+ name +:+ "=" +:+ dq +:+ value +:+ dq.

Definition DEFAULT_LOGO_SVG : string :=
  nl +:+ "        <svg" +:+ attr "viewBox" "0 0 80 32" +:+ attr "fill" "none"
  +:+ attr "xmlns" "http://www.w3.org/2000/svg" +:+ attr "class" "h-7" +:+ ">"
  +:+ nl +:+ "            <text" +:+ attr "x" "0" +:+ attr "y" "24" +:+ attr "fill" "currentColor"
  +:+ attr "font-family" "system-ui, -apple-system, sans-serif" +:+ attr "font-size" "24"
  +:+ attr "font-weight" "700" +:+ ">AS</text>"
  +:+ nl +:+ "        </svg>" +:+ nl +:+ "    ".

Definition DEFAULT_COLORS : list (string * json) :=
  [("primary", JStr "#00142E"); ("primary_light", JStr "#0a2540");
   ("primary_dark", JStr "#000d1f"); ("accent", JStr "#4fc4f7");
   ("accent_light", JStr "#7dd3fc"); ("accent_dark", JStr "#3db8eb");
   ("secondary", JStr "#253547"); ("secondary_light", JStr "#334155");
   ("secondary_dark", JStr "#1e293b")].

Definition DEFAULT_BRANDING : list (string * json) :=
  [("app_name", JStr "Agent Studio"); ("logo_svg", JStr DEFAULT_LOGO_SVG);
   ("show_app_name", JBool true); ("colors", JObj DEFAULT_COLORS);
   ("chat_primary_color", JStr "#00142E"); ("custom_css", JStr EmptyString)].

(** [get_branding]; [settings.AGENT_STUDIO_BRANDING] is [None] when unset. *)
Definition get_branding (setting : option (list (string * json))) : list (string * json) :=
  let user_branding := default [] setting in
  fold_left
    (fun merged kv =>
       let '(key, value) := kv in
       if String.eqb key "colors" && is_dict value
       then dict_set "colors" (JObj (dict_merge DEFAULT_COLORS (obj_fields value))) merged
       else dict_set key value merged)
    user_branding DEFAULT_BRANDING.

(** [branding_context_processor]: each [branding[...]] raises [KeyError]
    ([None]) on a missing key. *)
Definition branding_context_processor (setting : option (list (string * json)))
  : option (list (string * json)) :=
  let branding := get_branding setting in
  app_name ← assoc "app_name" branding;
  logo_svg ← assoc "logo_svg" branding;
  show_app_name ← assoc "show_app_name" branding;
  colors ← assoc "colors" branding;
  chat_primary_color ← assoc "chat_primary_color" branding;
  custom_css ← assoc "custom_css" branding;
  Some [("studio_branding", JObj branding); ("studio_app_name", app_name);
        ("studio_logo_svg", logo_svg); ("studio_show_app_name", show_app_name);
        ("studio_colors", colors); ("studio_chat_primary_color", chat_primary_color);
        ("studio_custom_css", custom_css)].

(** The value [get_branding] stores for one entry of the setting. *)
Definition branding_value (kv : string * json) : string * json :=
  (fst kv, if String.eqb (fst kv) "colors" && is_dict (snd kv)
           then JObj (dict_merge DEFAULT_COLORS (obj_fields (snd kv))) else snd kv).

(* ------------------------------------------------------------------ *)
(** ** Reading of the spec *)

(** An entry the Knowledge Assembler keeps: mode [always], non-empty
    content. *)
Definition always_with_content (k : knowledge) : bool :=
  bool_decide (k_inclusion_mode k = Some "always") && truthy (k_content k).

(** Its header [## {name}] and body. *)
Definition knowledge_block (k : knowledge) : string :=
  "## " +:+ default "Knowledge" (k_name k) +:+ nl +:+ default EmptyString (k_content k).

(** Prompt layers appended in order, each only when non-empty, after a
    blank line. *)
Definition add_layer (acc layer : string) : string :=
  if String.eqb layer EmptyString then acc else acc +:+ (nl +:+ nl) +:+ layer.

Definition layered_prompt (base : string) (layers : list string) : string :=
  fold_left add_layer layers base.

(** A string argument of a tool call, [""] when absent ([None] when the
    argument is not a string). *)
Definition arg_text (k : string) (args : list (string * json)) : option string :=
  match assoc k args with
  | None => Some EmptyString
  | Some (JStr s) => Some s
  | Some _ => None
  end.

(** The most recent message with role [user], scanning forwards. *)
Definition latest_user_message (ms : list message) : option message :=
  fold_left (fun acc m => if bool_decide (m_role m = Some "user") then Some m else acc) ms None.

(** The tool a later entry of the list leaves in the map for [n]. *)
Fixpoint last_named (n : string) (ts : list tool_spec) : option tool_spec :=
  match ts with
  | [] => None
  | t :: ts' =>
      match last_named n ts' with
      | Some u => Some u
      | None => if bool_decide (tool_name_of t = Some n) then Some t else None
      end
  end.

Definition is_emit (a : act) : bool :=
  match a with AEmit _ _ => true | _ => false end.

Definition is_execute (a : act) : bool :=
  match a with AExecute _ _ _ _ _ => true | _ => false end.

Definition is_memory_call (a : act) : bool :=
  match a with ARecallAll | AFormat => true | _ => false end.

Definition events (tr : list act) : list act := List.filter is_emit tr.

Definition raises {A} (o : exn + A) : bool :=
  match o with inl _ => true | inr _ => false end.

(* ------------------------------------------------------------------ *)
(** ** Concrete inputs *)

(** The end-to-end configuration of the spec: one [always] entry, no
    tools, memory disabled. *)
Definition policy_cfg : config := {|
  cfg_system_prompt := Some "Be helpful.";
  cfg_knowledge := [{| k_name := Some "Policy"; k_content := Some "No refunds.";
                       k_inclusion_mode := Some "always"; k_rag_status := None |}];
  cfg_tools := [];
  cfg_model := None;
  cfg_model_settings := [];
  cfg_memory_enabled := Some false;
  cfg_rag_config := None
|}.

Definition hi_msg : message := {| m_role := Some "user"; m_content := Some "Hi" |}.

Definition hi_ctx : run_ctx := {|
  ctx_input_messages := [hi_msg];
  ctx_conversation_id := None;
  ctx_run_id := "run-1";
  ctx_params_model := None;
  ctx_user_id := None
|}.

Definition policy_prompt : string :=
  "Be helpful." +:+ nl +:+ nl +:+ "## Policy" +:+ nl +:+ "No refunds.".

(** A collaborator set: every call succeeds; the loop calls tool [x] once
    and then answers [done]. *)
Definition ok_env : env string string := {|
  agent_id := "agent-1";
  DEFAULT_MODEL := "gpt-4o";
  retrieve_for_agent := fun _ q _ => inr ("notes on " +:+ q);
  get_user := fun u => inr u;
  new_store := fun u c => inr (u +:+ "/" +:+ c);
  recall_all := fun _ => inr [{| mem_key := "name"; mem_value := "Ada"; mem_source := "agent" |}];
  format_for_prompt := fun _ _ => inr "## Memories";
  store_remember := fun _ _ _ _ => inr tt;
  execute := fun _ _ _ _ _ => inr (XStr "ok");
  get_llm_client_for_model := fun _ => inr tt;
  loop_step := fun _ _ _ _ results =>
    match results with
    | [] => LCall "x" []
    | _ => LDone (inr {| lr_final_content := Some "done"; lr_messages := [] |})
    end;
  loop_fuel := 15;
  loop_stop := fun _ => inl (Exn "max iterations")
|}.

(** The same collaborators, except that the user lookup fails. *)
Definition no_user_env : env string string := {|
  agent_id := agent_id ok_env;
  DEFAULT_MODEL := DEFAULT_MODEL ok_env;
  retrieve_for_agent := retrieve_for_agent ok_env;
  get_user := fun _ => inl (Exn "User matching query does not exist.");
  new_store := new_store ok_env;
  recall_all := recall_all ok_env;
  format_for_prompt := format_for_prompt ok_env;
  store_remember := store_remember ok_env;
  execute := execute ok_env;
  get_llm_client_for_model := get_llm_client_for_model ok_env;
  loop_step := loop_step ok_env;
  loop_fuel := loop_fuel ok_env;
  loop_stop := loop_stop ok_env
|}.

(** A signed-in turn of conversation [c-1]. *)
Definition signed_in_ctx : run_ctx := {|
  ctx_input_messages := [hi_msg];
  ctx_conversation_id := Some "c-1";
  ctx_run_id := "run-2";
  ctx_params_model := None;
  ctx_user_id := Some "42"
|}.

(** Tools [a] and [b] of the spec's catalog example. *)
Definition named_tool (n : string) : tool_spec := {|
  t_type := Some "function";
  t_function := Some {| fn_name := Some n; fn_fields := [] |};
  t_meta := Some {| meta_function_path := Some ("tools." +:+ n);
                    meta_tool_id := None; meta_is_dynamic := None |}
|}.

Definition ab_cfg : config := {|
  cfg_system_prompt := None;
  cfg_knowledge := [];
  cfg_tools := [named_tool "a"; named_tool "b"];
  cfg_model := None;
  cfg_model_settings := [];
  cfg_memory_enabled := Some true;
  cfg_rag_config := None
|}.

(** A RAG source that has been indexed. *)
Definition indexed_source : knowledge := {|
  k_name := Some "Manual"; k_content := None;
  k_inclusion_mode := Some "rag"; k_rag_status := Some "indexed"
|}.

Definition rag_cfg : config := {|
  cfg_system_prompt := Some "Be helpful.";
  cfg_knowledge := [indexed_source];
  cfg_tools := [];
  cfg_model := None;
  cfg_model_settings := [];
  cfg_memory_enabled := Some false;
  cfg_rag_config := None
|}.

(** The last user message has empty content. *)
Definition empty_user_msg : message := {| m_role := Some "user"; m_content := Some EmptyString |}.

Definition empty_query_ctx : run_ctx := {|
  ctx_input_messages := [hi_msg; empty_user_msg];
  ctx_conversation_id := None;
  ctx_run_id := "run-3";
  ctx_params_model := None;
  ctx_user_id := None
|}.

(** The loop answers at once, with an empty final content. *)
Definition silent_env : env string string := {|
  agent_id := agent_id ok_env;
  DEFAULT_MODEL := DEFAULT_MODEL ok_env;
  retrieve_for_agent := retrieve_for_agent ok_env;
  get_user := get_user ok_env;
  new_store := new_store ok_env;
  recall_all := recall_all ok_env;
  format_for_prompt := format_for_prompt ok_env;
  store_remember := store_remember ok_env;
  execute := execute ok_env;
  get_llm_client_for_model := get_llm_client_for_model ok_env;
  loop_step := fun _ _ _ _ _ =>
    LDone (inr {| lr_final_content := Some EmptyString; lr_messages := [] |});
  loop_fuel := loop_fuel ok_env;
  loop_stop := loop_stop ok_env
|}.

(** A branding setting that renames the studio and overrides two colors. *)
Definition demo_branding : list (string * json) :=
  [("app_name", JStr "My Agent Studio");
   ("colors", JObj [("primary", JStr "#112233"); ("brand", JStr "#445566")])].

(* ------------------------------------------------------------------ *)
(** ** The monad *)

Lemma bind_inr {A B} (t : list act) (a : A) (f : A -> M B) :
  bind (t, inr a) f = (t ++ fst (f a), snd (f a)).
Proof. reflexivity. Qed.

Lemma snd_bind_inr {A B} (m : M A) (a : A) (f : A -> M B) :
  snd m = inr a -> snd (bind m f) = snd (f a).
Proof. destruct m as [t [e|x]]; simpl; congruence. Qed.

Lemma fst_bind_inr {A B} (m : M A) (a : A) (f : A -> M B) :
  snd m = inr a -> fst (bind m f) = fst m ++ fst (f a).
Proof. destruct m as [t [e|x]]; simpl; congruence. Qed.

(** A trace property: no action of the trace satisfies [P]. *)
Definition avoids (P : act -> bool) {A} (m : M A) : Prop :=
  Forall (fun a => P a = false) (fst m).

Lemma avoids_ret P {A} (a : A) : avoids P (ret a).
Proof. constructor. Qed.

Lemma avoids_raise P {A} (e : exn) : avoids P (@raise A e).
Proof. constructor. Qed.

Lemma avoids_lift P {A} (o : exn + A) : avoids P (lift o).
Proof. constructor. Qed.

Lemma avoids_perform P a : P a = false -> avoids P (perform a).
Proof. intros H. repeat constructor. exact H. Qed.

Lemma avoids_bind P {A B} (m : M A) (f : A -> M B) :
  avoids P m -> (forall a, avoids P (f a)) -> avoids P (bind m f).
Proof.
  unfold avoids. destruct m as [t [e|x]]; simpl; intros Hm Hf; auto.
  apply Forall_app; split; [exact Hm | apply Hf].
Qed.

Lemma avoids_try P {A} (m : M A) (h : exn -> M A) :
  avoids P m -> (forall e, avoids P (h e)) -> avoids P (try_except m h).
Proof.
  unfold avoids. destruct m as [t [e|x]]; simpl; intros Hm Hh; auto.
  apply Forall_app; split; [exact Hm | apply Hh].
Qed.

Create HintDb trace.
#[local] Hint Resolve avoids_ret avoids_raise avoids_lift avoids_perform : trace.
#[local] Hint Resolve avoids_bind avoids_try : trace.

(** Unfold a computation and show its trace avoids [P], case by case. *)
Ltac avoid_tac :=
  repeat (first [ progress (intros; simpl)
                | reflexivity
                | solve [unfold avoids; simpl; repeat constructor]
                | apply avoids_bind
                | apply avoids_try
                | apply avoids_perform
                | apply avoids_ret | apply avoids_raise | apply avoids_lift
                | case_match ]).

(* ------------------------------------------------------------------ *)
(** ** Knowledge Assembler *)

Lemma knowledge_parts_spec ks parts :
  knowledge_parts ks parts = parts ++ map knowledge_block (List.filter always_with_content ks).
Proof.
  revert parts. induction ks as [|k ks IH]; intros parts.
  - by rewrite app_nil_r.
  - cbn [knowledge_parts List.filter].
    assert (Hq : always_with_content k
                 = bool_decide (k_inclusion_mode k = Some "always") && truthy (k_content k))
      by reflexivity.
    rewrite Hq.
    destruct (bool_decide _), (truthy _); simpl; rewrite IH; by rewrite <-?app_assoc.
Qed.

(** C8: the Knowledge Assembler output is the blank-line-separated list of
    [## {name}] headers and bodies of the [always]-mode entries with
    non-empty content, in list order; any other entry (a [rag] entry, an
    entry without content) contributes nothing, and the output is empty
    when no entry qualifies. *)
Theorem knowledge_context_exact (ks : list knowledge) :
  build_knowledge_context ks
    = String.concat (nl +:+ nl) (map knowledge_block (List.filter always_with_content ks))
  /\ (forall ks1 k ks2, always_with_content k = false ->
        build_knowledge_context (ks1 ++ k :: ks2) = build_knowledge_context (ks1 ++ ks2))
  /\ (forall k, In k ks -> k_inclusion_mode k = Some "rag" -> always_with_content k = false)
  /\ (List.filter always_with_content ks = [] -> build_knowledge_context ks = EmptyString).
Proof.
  unfold build_knowledge_context. repeat split.
  - by rewrite knowledge_parts_spec.
  - intros ks1 k ks2 Hk. rewrite !knowledge_parts_spec, !List.filter_app. simpl.
    rewrite Hk. reflexivity.
  - intros k _ Hr. unfold always_with_content. rewrite Hr.
    rewrite bool_decide_eq_false_2; [reflexivity | discriminate].
  - intros H. rewrite knowledge_parts_spec, H. reflexivity.
Qed.

(* ------------------------------------------------------------------ *)
(** ** The prompt layers never raise *)

Section Layers.
Context {User Store : Type}.
Variable E : env User Store.

Lemma retrieve_rag_knowledge_total cfg ctx :
  exists r, snd (retrieve_rag_knowledge E cfg ctx) = inr r.
Proof.
  unfold retrieve_rag_knowledge.
  destruct (List.filter is_indexed_rag (cfg_knowledge cfg)); [by eexists|].
  case_match; [by eexists|].
  simpl. destruct (retrieve_for_agent E _ _ _); simpl; by eexists.
Qed.

Lemma get_memory_store_total ctx :
  exists st, snd (get_memory_store E ctx) = inr st.
Proof.
  unfold get_memory_store.
  destruct (ctx_user_id ctx) as [u|], (ctx_conversation_id ctx) as [c|]; try by eexists.
  case_match; [by eexists|].
  simpl. destruct (get_user E u); simpl; [by eexists|].
  destruct (new_store E _ c); simpl; by eexists.
Qed.

Lemma recall_memories_total st :
  exists r, snd (recall_memories E st) = inr r.
Proof.
  unfold recall_memories. simpl.
  destruct (recall_all E st) as [e|[|m ms]]; simpl; try by eexists.
  destruct (format_for_prompt E st _); simpl; by eexists.
Qed.

Lemma layer_step (acc layer : string) :
  (if truthy (Some layer) then acc +:+ nl +:+ nl +:+ layer else acc) = add_layer acc layer.
Proof. unfold add_layer. simpl. by destruct (String.eqb layer EmptyString). Qed.

Lemma build_system_prompt_layers cfg ctx :
  exists rag_context memory_store memory_context,
    snd (retrieve_rag_knowledge E cfg ctx) = inr rag_context /\
    (if memory_enabled cfg then snd (get_memory_store E ctx) = inr memory_store
     else memory_store = None) /\
    match memory_store with
    | Some st => snd (recall_memories E st) = inr memory_context
    | None => memory_context = EmptyString
    end /\
    snd (build_system_prompt E cfg ctx)
      = inr (layered_prompt (default EmptyString (cfg_system_prompt cfg))
               [build_knowledge_context (cfg_knowledge cfg); rag_context; memory_context],
             memory_store).
Proof.
  destruct (retrieve_rag_knowledge_total cfg ctx) as [rc Hrc].
  unfold build_system_prompt.
  destruct (retrieve_rag_knowledge E cfg ctx) as [t1 r1]; simpl in Hrc; subst r1.
  cbn [bind fst snd]. rewrite !layer_step.
  destruct (memory_enabled cfg).
  - destruct (get_memory_store_total ctx) as [st Hst].
    destruct (get_memory_store E ctx) as [t2 r2]; simpl in Hst; subst r2.
    cbn [bind fst snd]. destruct st as [s|].
    + destruct (recall_memories_total s) as [mc Hmc].
      destruct (recall_memories E s) as [t3 r3] eqn:Hr3; simpl in Hmc; subst r3.
      cbn [bind fst snd]. rewrite layer_step.
      exists rc, (Some s), mc. rewrite Hr3. repeat split.
    + exists rc, None, EmptyString. repeat split.
  - exists rc, None, EmptyString. repeat split.
Qed.

End Layers.

(* ------------------------------------------------------------------ *)
(** ** Turn Orchestrator: the system prompt *)

(** C1: the system prompt is the base prompt followed, in this order, by
    the Knowledge Assembler output, the Retrieval Bridge output and (only
    with memory enabled and a store acquired) the recalled memories, each
    appended after a blank line and only when non-empty.  On the spec's
    end-to-end configuration the system message is exactly
    ["Be helpful.\n\n## Policy\nNo refunds."], no external call is made
    while building it, and no tools are passed to the loop. *)
Theorem system_prompt_layer_order {User Store} (E : env User Store) (cfg : config) (ctx : run_ctx) :
  (exists rag_context memory_store memory_context,
    snd (retrieve_rag_knowledge E cfg ctx) = inr rag_context /\
    (if memory_enabled cfg then snd (get_memory_store E ctx) = inr memory_store
     else memory_store = None) /\
    match memory_store with
    | Some st => snd (recall_memories E st) = inr memory_context
    | None => memory_context = EmptyString
    end /\
    snd (build_system_prompt E cfg ctx)
      = inr (layered_prompt (default EmptyString (cfg_system_prompt cfg))
               [build_knowledge_context (cfg_knowledge cfg); rag_context; memory_context],
             memory_store))
  /\ build_system_prompt E policy_cfg hi_ctx = ([], inr (policy_prompt, None))
  /\ turn_messages policy_prompt hi_ctx
       = [{| m_role := Some "system"; m_content := Some policy_prompt |}; hi_msg]
  /\ tools_arg (run_tools policy_cfg) = None
  /\ exists rest,
       fst (run E policy_cfg hi_ctx)
         = AGetLlm (DEFAULT_MODEL E)
           :: (if raises (get_llm_client_for_model E (DEFAULT_MODEL E)) then []
               else ALoop [{| m_role := Some "system"; m_content := Some policy_prompt |}; hi_msg]
                      None (DEFAULT_MODEL E) 15 [] :: rest).
Proof.
  split; [apply build_system_prompt_layers|].
  split; [reflexivity|]. split; [reflexivity|]. split; [reflexivity|].
  unfold run. cbn.
  destruct (get_llm_client_for_model E (DEFAULT_MODEL E)); simpl.
  - by exists [].
  - match goal with
    | |- context [drive ?E0 ?f ?ms ?ts ?m ?st ?c ?rs] =>
        destruct (drive E0 f ms ts m st c rs) as [t [e|r]]
    end; simpl; [|destruct (truthy _); simpl]; eexists; reflexivity.
Qed.

Lemma add_layer_empty (acc : string) : add_layer acc EmptyString = acc.
Proof. reflexivity. Qed.

Lemma retrieve_rag_knowledge_no_memory_call {User Store} (E : env User Store) cfg ctx :
  avoids is_memory_call (retrieve_rag_knowledge E cfg ctx).
Proof. unfold retrieve_rag_knowledge. avoid_tac. Qed.

Lemma memory_layer_absent {User Store} (E : env User Store) cfg ctx :
  snd (get_memory_store E ctx) = inr None ->
  exists rag_context,
    snd (retrieve_rag_knowledge E cfg ctx) = inr rag_context /\
    snd (build_system_prompt E cfg ctx)
      = inr (layered_prompt (default EmptyString (cfg_system_prompt cfg))
               [build_knowledge_context (cfg_knowledge cfg); rag_context], None).
Proof.
  intros Hnone.
  destruct (build_system_prompt_layers E cfg ctx) as (rc & st & mc & Hrc & Hst & Hmc & Hb).
  exists rc. split; [exact Hrc|]. rewrite Hb.
  assert (st = None) as ->.
  { destruct (memory_enabled cfg); [congruence | exact Hst]. }
  subst mc. unfold layered_prompt. simpl. by rewrite add_layer_empty.
Qed.

(** C7: without a (truthy) [user_id] in the metadata or without a
    conversation id, the store is absent and acquiring it calls nothing;
    whatever [memory_enabled] says, the system prompt is the base prompt
    with the knowledge and RAG layers only, and no recall is made. *)
Theorem memory_absent_without_ids {User Store} (E : env User Store) (cfg : config) (ctx : run_ctx)
  (Hmissing : truthy (ctx_user_id ctx) = false \/ truthy (ctx_conversation_id ctx) = false) :
  get_memory_store E ctx = ([], inr None) /\
  (exists rag_context,
    snd (retrieve_rag_knowledge E cfg ctx) = inr rag_context /\
    snd (build_system_prompt E cfg ctx)
      = inr (layered_prompt (default EmptyString (cfg_system_prompt cfg))
               [build_knowledge_context (cfg_knowledge cfg); rag_context], None)) /\
  avoids is_memory_call (build_system_prompt E cfg ctx).
Proof.
  assert (Hg : get_memory_store E ctx = ([], inr None)).
  { unfold get_memory_store.
    destruct (ctx_user_id ctx) as [u|], (ctx_conversation_id ctx) as [c|]; try reflexivity.
    destruct Hmissing as [H|H]; rewrite H; [reflexivity|].
    by rewrite orb_true_r. }
  split; [exact Hg|]. split.
  - apply memory_layer_absent. by rewrite Hg.
  - unfold build_system_prompt.
    apply avoids_bind; [apply retrieve_rag_knowledge_no_memory_call|]. intros rc.
    destruct (memory_enabled cfg); [|apply avoids_ret].
    rewrite Hg. unfold avoids. constructor.
Qed.

Lemma memory_absent_without_ids_witness :
  (truthy (ctx_user_id hi_ctx) = false \/ truthy (ctx_conversation_id hi_ctx) = false) /\
  get_memory_store ok_env hi_ctx = ([], inr None).
Proof.
  split; [left; reflexivity|].
  apply (memory_absent_without_ids ok_env policy_cfg hi_ctx). left; reflexivity.
Defined.

(** C10: acquiring the memory store never raises; with both ids present, a
    failing user lookup or store construction gives an absent store and the
    turn goes on with the memory layer left out of the system prompt. *)
Theorem memory_store_acquisition_never_raises {User Store} (E : env User Store)
  (cfg : config) (ctx : run_ctx) (user_id conversation_id : string)
  (Hu : ctx_user_id ctx = Some user_id)
  (Hc : ctx_conversation_id ctx = Some conversation_id)
  (Hpresent : user_id <> EmptyString /\ conversation_id <> EmptyString)
  (Hfail : raises (get_user E user_id) = true \/
           exists u, get_user E user_id = inr u /\ raises (new_store E u conversation_id) = true) :
  (forall ctx' : run_ctx, exists st, snd (get_memory_store E ctx') = inr st) /\
  snd (get_memory_store E ctx) = inr None /\
  (exists rag_context,
    snd (retrieve_rag_knowledge E cfg ctx) = inr rag_context /\
    snd (build_system_prompt E cfg ctx)
      = inr (layered_prompt (default EmptyString (cfg_system_prompt cfg))
               [build_knowledge_context (cfg_knowledge cfg); rag_context], None)).
Proof.
  assert (Hnone : snd (get_memory_store E ctx) = inr None).
  { unfold get_memory_store. rewrite Hu, Hc.
    destruct Hpresent as [Hu' Hc'].
    assert (truthy (Some user_id) = true) as ->.
    { simpl. destruct (String.eqb_spec user_id EmptyString); [contradiction | reflexivity]. }
    assert (truthy (Some conversation_id) = true) as ->.
    { simpl. destruct (String.eqb_spec conversation_id EmptyString); [contradiction | reflexivity]. }
    simpl. destruct Hfail as [Hf | (u & Hgu & Hf)].
    - destruct (get_user E user_id); [reflexivity | discriminate].
    - rewrite Hgu. simpl. destruct (new_store E u conversation_id); [reflexivity | discriminate]. }
  split; [apply get_memory_store_total|].
  split; [exact Hnone|].
  by apply memory_layer_absent.
Qed.

Lemma memory_store_acquisition_never_raises_witness :
  snd (get_memory_store no_user_env signed_in_ctx) = inr None.
Proof.
  apply (memory_store_acquisition_never_raises no_user_env policy_cfg signed_in_ctx "42" "c-1");
    [reflexivity | reflexivity | split; discriminate | left; reflexivity].
Defined.

(* ------------------------------------------------------------------ *)
(** ** Tool Dispatcher *)

Lemma get_stripped_text {A} (k : string) (args : list (string * json)) (s : string) (f : string -> M A) :
  arg_text k args = Some s -> bind (get_stripped k args) f = f (strip s).
Proof.
  unfold arg_text, get_stripped. intros H.
  destruct (assoc k args) as [[]|]; simpl in *; try discriminate; injection H as <-;
    unfold bind; simpl; by destruct (f _).
Qed.

(** C2: a call to any tool other than [remember] never raises; when the
    tool map has no entry for the name, or an entry with no
    [function_path], the result is exactly
    [{"error": "Tool '<name>' has no function_path configured"}] and nothing
    is called; an exception of the tool executor comes back as the
    [{"error": str(e)}] payload. *)
Theorem dispatch_never_raises {User Store} (E : env User Store)
  (tool_map : gmap string tool_info) (memory_store : option Store) (ctx : run_ctx)
  (tool_name : string) (tool_args : list (string * json))
  (Hname : tool_name <> "remember") :
  (exists out, snd (execute_tool E tool_map memory_store ctx tool_name tool_args) = inr out) /\
  ((tool_map !! tool_name = None \/
    exists i, tool_map !! tool_name = Some i /\ ti_function_path i = None) ->
   execute_tool E tool_map memory_store ctx tool_name tool_args
     = ([], inr (no_function_path_payload tool_name))) /\
  (forall i fp e, tool_map !! tool_name = Some i -> ti_function_path i = Some fp ->
     fp <> EmptyString ->
     execute E fp tool_args (ctx_run_id ctx) (ctx_user_id ctx) (ti_tool_id i) = inl e ->
     snd (execute_tool E tool_map memory_store ctx tool_name tool_args)
       = inr (error_payload (str e))) /\
  no_function_path_payload "x"
    = "{" +:+ dq +:+ "error" +:+ dq +:+ ": " +:+ dq
      +:+ "Tool 'x' has no function_path configured" +:+ dq +:+ "}".
Proof.
  assert (Hd : execute_tool E tool_map memory_store ctx tool_name tool_args
               = execute_tool_ E tool_name tool_args tool_map ctx).
  { unfold execute_tool. destruct (String.eqb_spec tool_name "remember"); [contradiction|reflexivity]. }
  rewrite Hd. unfold execute_tool_. split; [|split; [|split]].
  - case_match; [by eexists|].
    simpl. destruct (execute E _ _ _ _ _) as [e|[s|j|ty]]; simpl; by eexists.
  - intros [H | (i & H & Hp)]; rewrite H; simpl; [reflexivity|]. by rewrite Hp.
  - intros i fp e H Hp Hne Hx. rewrite H. simpl. rewrite Hp.
    assert (truthy (Some fp) = true) as ->.
    { simpl. destruct (String.eqb_spec fp EmptyString); [contradiction | reflexivity]. }
    simpl. rewrite Hx. reflexivity.
  - reflexivity.
Qed.

Lemma dispatch_never_raises_witness :
  execute_tool ok_env ∅ None hi_ctx "x" [] = ([], inr (no_function_path_payload "x")).
Proof.
  apply (dispatch_never_raises ok_env ∅ None hi_ctx "x" []); [discriminate|].
  left. reflexivity.
Defined.

Lemma execute_remember_tool_no_execute {User Store} (E : env User Store) args memory_store :
  avoids is_execute (execute_remember_tool E args memory_store).
Proof. unfold execute_remember_tool, get_stripped. avoid_tac. Qed.

(** C4: a call named [remember] goes to the built-in handler whatever the
    tool map holds (also an entry of its own named [remember]); the tool
    executor is never called; without a memory store the answer is the
    "memory not available" payload with its hint. *)
Theorem remember_builtin_wins {User Store} (E : env User Store)
  (tool_map : gmap string tool_info) (memory_store : option Store) (ctx : run_ctx)
  (tool_args : list (string * json)) :
  execute_tool E tool_map memory_store ctx "remember" tool_args
    = execute_remember_tool E tool_args memory_store /\
  avoids is_execute (execute_tool E tool_map memory_store ctx "remember" tool_args) /\
  execute_tool E tool_map None ctx "remember" tool_args = ([], inr memory_unavailable_payload) /\
  memory_unavailable_payload
    = dumps (JObj [("error", JStr "Memory not available for this conversation");
                   ("hint", JStr "Memory requires a logged-in user and conversation context")]).
Proof.
  split; [reflexivity|]. split; [|split; reflexivity].
  apply execute_remember_tool_no_execute.
Qed.

(** C6 (as the code does it): with a store and [key] and [value]
    arguments that are strings or absent, as the tool schema declares
    them, an empty-after-strip key gives the missing-key
    error, a present key with an empty-after-strip value the (different)
    missing-value error, both without any call; both present give exactly
    one [remember(key, value, source="agent")] call and the success payload,
    or the [{"error": str(e)}] payload when persisting raises. *)
Theorem remember_validation {User Store} (E : env User Store) (st : Store)
  (args : list (string * json)) (key value : string)
  (Hk : arg_text "key" args = Some key) (Hv : arg_text "value" args = Some value) :
  (strip key = EmptyString ->
     execute_remember_tool E args (Some st) = ([], inr missing_key_payload)) /\
  (strip key <> EmptyString -> strip value = EmptyString ->
     execute_remember_tool E args (Some st) = ([], inr missing_value_payload)) /\
  (strip key <> EmptyString -> strip value <> EmptyString ->
     fst (execute_remember_tool E args (Some st))
       = [ARemember (strip key) (strip value) "agent"] /\
     snd (execute_remember_tool E args (Some st))
       = inr (match store_remember E st (strip key) (strip value) "agent" with
              | inr _ => remembered_payload (strip key)
              | inl e => error_payload (str e)
              end)) /\
  missing_key_payload <> missing_value_payload.
Proof.
  unfold execute_remember_tool.
  rewrite (get_stripped_text _ _ _ _ Hk), (get_stripped_text _ _ _ _ Hv).
  assert (Ht : forall s, s <> EmptyString -> truthy (Some s) = true).
  { intros s Hs. simpl. destruct (String.eqb_spec s EmptyString); [contradiction | reflexivity]. }
  split; [|split; [|split]].
  - intros H. rewrite H. reflexivity.
  - intros H1 H2. rewrite (Ht _ H1), H2. reflexivity.
  - intros H1 H2. rewrite (Ht _ H1), (Ht _ H2). simpl.
    destruct (store_remember E st _ _ _); simpl; split; reflexivity.
  - discriminate.
Qed.

Lemma remember_validation_witness :
  execute_remember_tool ok_env [("key", JStr "  "); ("value", JStr "Ada")] (Some "42/c-1")
    = ([], inr missing_key_payload).
Proof.
  apply (remember_validation ok_env "42/c-1" [("key", JStr "  "); ("value", JStr "Ada")] "  " "Ada");
    reflexivity.
Defined.

(** C6 fails as stated: with a blank key and a number as value, the
    value's [.strip()] runs before the key is checked and raises, so the
    [remember] call raises (nothing stored) instead of returning the
    missing-key error. *)
Lemma remember_blank_key_numeric_value :
  strip "  " = EmptyString /\
  exists e, execute_tool ok_env ∅ (Some "42/c-1") signed_in_ctx "remember"
              [("key", JStr "  "); ("value", JInt 36)] = ([], inl e).
Proof. split; [reflexivity | eexists; vm_compute; reflexivity]. Qed.

(* ------------------------------------------------------------------ *)
(** ** Tool Catalog Builder *)

Lemma build_tool_map_loop_lookup (ts : list tool_spec) (m : gmap string tool_info) (n : string) :
  build_tool_map_loop ts m !! n
    = match (if String.eqb n EmptyString then None else last_named n ts) with
      | Some t => Some (tool_info_of t)
      | None => m !! n
      end.
Proof.
  revert m. induction ts as [|t ts IH]; intros m; cbn [build_tool_map_loop last_named].
  - by destruct (String.eqb n EmptyString).
  - destruct (tool_name_of t) as [x|] eqn:Hx.
    + destruct (truthy (Some x)) eqn:Htx; rewrite IH.
      * simpl in Htx. apply negb_true_iff, String.eqb_neq in Htx.
        destruct (String.eqb_spec n EmptyString) as [Hn0|Hn].
        { subst n. simpl. by rewrite lookup_insert_ne. }
        destruct (last_named n ts); [reflexivity|].
        destruct (decide (x = n)) as [->|Hxn].
        { rewrite lookup_insert_eq, bool_decide_eq_true_2; reflexivity. }
        rewrite lookup_insert_ne by exact Hxn.
        rewrite bool_decide_eq_false_2; [reflexivity|congruence].
      * simpl in Htx. apply negb_false_iff, String.eqb_eq in Htx. subst x.
        destruct (String.eqb_spec n EmptyString) as [Hn0|Hn]; [reflexivity|].
        destruct (last_named n ts); [reflexivity|].
        rewrite bool_decide_eq_false_2; [reflexivity|congruence].
    + rewrite IH. destruct (String.eqb n EmptyString); [reflexivity|].
      destruct (last_named n ts); [reflexivity|].
      rewrite bool_decide_eq_false_2; [reflexivity|congruence].
Qed.

Lemma last_named_some (n : string) (ts : list tool_spec) :
  is_Some (last_named n ts) <-> exists t, In t ts /\ tool_name_of t = Some n.
Proof.
  induction ts as [|t ts IH]; simpl.
  - split; [intros [? H]; discriminate | intros (? & [] & _)].
  - split.
    + destruct (last_named n ts) eqn:Hl.
      * intros _. destruct (proj1 IH (ltac:(eexists; reflexivity))) as (u & Hu & Hn).
        exists u; auto.
      * case_bool_decide; [intros _; exists t; auto | intros [? Hs]; discriminate].
    + intros (u & [->|Hu] & Hn).
      * destruct (last_named n ts); [by eexists|]. rewrite bool_decide_eq_true_2; [by eexists|exact Hn].
      * destruct (proj2 IH (ltac:(exists u; auto))) as [v Hv]. rewrite Hv. by eexists.
Qed.

Lemma build_tool_schemas_loop_spec (ts : list tool_spec) (acc : list schema) :
  build_tool_schemas_loop ts acc = acc ++ map tool_schema ts.
Proof.
  revert acc. induction ts as [|t ts IH]; intros acc; simpl.
  - by rewrite app_nil_r.
  - rewrite IH, <- app_assoc. reflexivity.
Qed.

(** C3 (as the code does it): with memory enabled the schema list is the
    configured tools in order, each cut down to [{type, function}] (type
    ["function"] and function [{}] by default), then the [remember]
    schema; the tool map has one entry for each distinct non-empty
    declared name, holding the metadata of the last tool with that name,
    and no other key (so [remember] only when a configured tool declares
    it).  Tools [a] and [b] give 3 schemas and a map of 2 entries without
    [remember]. *)
Theorem tool_catalog_with_memory (cfg : config) (Hmem : memory_enabled cfg = true) :
  run_tools cfg
    = map (fun t => {| sc_type := default "function" (t_type t);
                       sc_function := default empty_function (t_function t) |})
          (cfg_tools cfg) ++ [MEMORY_TOOL_SCHEMA] /\
  (forall n, build_tool_map (cfg_tools cfg) !! n
     = if String.eqb n EmptyString then None
       else option_map tool_info_of (last_named n (cfg_tools cfg))) /\
  (forall n, is_Some (build_tool_map (cfg_tools cfg) !! n)
     <-> n <> EmptyString /\ exists t, In t (cfg_tools cfg) /\ tool_name_of t = Some n) /\
  length (run_tools ab_cfg) = 3 /\
  map_size (build_tool_map (cfg_tools ab_cfg)) = 2 /\
  build_tool_map (cfg_tools ab_cfg) !! "remember" = None.
Proof.
  assert (Hlk : forall n, build_tool_map (cfg_tools cfg) !! n
     = if String.eqb n EmptyString then None
       else option_map tool_info_of (last_named n (cfg_tools cfg))).
  { intros n. unfold build_tool_map. rewrite build_tool_map_loop_lookup.
    destruct (String.eqb n EmptyString); [reflexivity|].
    by destruct (last_named n (cfg_tools cfg)). }
  split; [|split; [exact Hlk|split; [|repeat split; reflexivity]]].
  - unfold run_tools, build_tool_schemas. rewrite Hmem, build_tool_schemas_loop_spec.
    reflexivity.
  - intros n. rewrite Hlk, <- last_named_some.
    destruct (String.eqb_spec n EmptyString) as [->|Hn].
    + split; [intros [? H]; discriminate | intros [[] _]; reflexivity].
    + destruct (last_named n (cfg_tools cfg)); simpl.
      * split; [intros _; split; [exact Hn | by eexists] | by eexists].
      * split; [intros [? H]; discriminate | intros [_ [? H]]; discriminate].
Qed.

Lemma tool_catalog_with_memory_witness :
  memory_enabled ab_cfg = true /\ length (run_tools ab_cfg) = 3.
Proof.
  split; [reflexivity|].
  apply (tool_catalog_with_memory ab_cfg). reflexivity.
Defined.

(** C3 fails as stated: a tool declaring the empty function name gets no
    entry in the tool map. *)
Lemma tool_map_skips_empty_name :
  tool_name_of (named_tool EmptyString) = Some EmptyString /\
  map_size (build_tool_map [named_tool EmptyString]) = 0.
Proof. split; reflexivity. Qed.

(* ------------------------------------------------------------------ *)
(** ** Retrieval Bridge *)

Lemma first_user_rev (ms : list message) :
  first_user (rev ms) = latest_user_message ms.
Proof.
  induction ms as [|m ms IH] using rev_ind; [reflexivity|].
  rewrite rev_app_distr. unfold latest_user_message in *. rewrite fold_left_app.
  simpl. rewrite <- IH. by case_bool_decide.
Qed.

(** C5 (as the code does it): without an indexed [rag] source the bridge
    returns [""] and calls nothing; otherwise it takes the most recent
    [user] message and, when there is none or its content is empty, returns
    [""] and calls nothing; else it makes exactly one retriever call with
    the agent id, that content and [rag_config] ([{}] by default), and
    returns the retriever's text, or [""] when the retriever raises. *)
Theorem retrieval_bridge {User Store} (E : env User Store) (cfg : config) (ctx : run_ctx) :
  retrieve_rag_knowledge E cfg ctx
    = match List.filter is_indexed_rag (cfg_knowledge cfg) with
      | [] => ([], inr EmptyString)
      | _ :: _ =>
          match latest_user_message (ctx_input_messages ctx) with
          | Some m =>
              if truthy (m_content m) then
                let q := default EmptyString (m_content m) in
                let rc := default (JObj []) (cfg_rag_config cfg) in
                ([ARetrieve (agent_id E) q rc],
                 inr (match retrieve_for_agent E (agent_id E) q rc with
                      | inr text => text
                      | inl _ => EmptyString
                      end))
              else ([], inr EmptyString)
          | None => ([], inr EmptyString)
          end
      end.
Proof.
  unfold retrieve_rag_knowledge. rewrite first_user_rev.
  destruct (List.filter is_indexed_rag (cfg_knowledge cfg)); [reflexivity|].
  destruct (latest_user_message (ctx_input_messages ctx)) as [m|]; [|reflexivity].
  destruct (m_content m) as [c|]; [|reflexivity]. simpl.
  destruct (String.eqb c EmptyString); simpl; [reflexivity|].
  destruct (retrieve_for_agent E _ _ _); reflexivity.
Qed.

(** C5 fails as stated: the most recent user message exists but is empty,
    and the retriever is not called. *)
Lemma retrieval_skips_empty_query :
  latest_user_message (ctx_input_messages empty_query_ctx) = Some empty_user_msg /\
  List.filter is_indexed_rag (cfg_knowledge rag_cfg) = [indexed_source] /\
  retrieve_rag_knowledge ok_env rag_cfg empty_query_ctx = ([], inr EmptyString).
Proof. repeat split. Qed.

(* ------------------------------------------------------------------ *)
(** ** Turn Orchestrator: events *)

Lemma avoids_events {A} (m : M A) : avoids is_emit m -> events (fst m) = [].
Proof.
  unfold avoids, events. induction (fst m) as [|a t IH]; intros H; [reflexivity|].
  inversion H as [|? ? Ha Ht]; subst. simpl. rewrite Ha. by apply IH.
Qed.

Lemma build_system_prompt_no_emit {User Store} (E : env User Store) cfg ctx :
  avoids is_emit (build_system_prompt E cfg ctx).
Proof.
  unfold build_system_prompt, retrieve_rag_knowledge, get_memory_store, recall_memories.
  avoid_tac.
Qed.

Lemma execute_tool_no_emit {User Store} (E : env User Store) tool_map memory_store ctx n args :
  avoids is_emit (execute_tool E tool_map memory_store ctx n args).
Proof.
  unfold execute_tool, execute_remember_tool, execute_tool_, get_stripped, dumps_result.
  avoid_tac.
Qed.

Lemma drive_no_emit {User Store} (E : env User Store) fuel messages tools model settings
  call results :
  (forall n args, avoids is_emit (call n args)) ->
  avoids is_emit (drive E fuel messages tools model settings call results).
Proof.
  intros Hc. revert results. induction fuel as [|fuel IH]; intros results; cbn [drive].
  - apply avoids_lift.
  - destruct (loop_step E _ _ _ _ _); [|apply avoids_lift].
    apply avoids_bind; [by apply avoids_perform|]. intros _.
    apply avoids_bind; [apply Hc|]. intros out. apply IH.
Qed.

Lemma run_agentic_loop_no_emit {User Store} (E : env User Store) messages tools model settings
  call :
  (forall n args, avoids is_emit (call n args)) ->
  avoids is_emit (run_agentic_loop E messages tools model settings call).
Proof.
  intros Hc. unfold run_agentic_loop. destruct (duplicate_keyword settings).
  - apply avoids_raise.
  - apply avoids_bind; [by apply avoids_perform|]. intros _. by apply drive_no_emit.
Qed.

Lemma build_system_prompt_total {User Store} (E : env User Store) cfg ctx :
  exists system_prompt memory_store,
    snd (build_system_prompt E cfg ctx) = inr (system_prompt, memory_store).
Proof.
  destruct (build_system_prompt_layers E cfg ctx) as (rc & st & mc & _ & _ & _ & H).
  rewrite H. by do 2 eexists.
Qed.

(** C9 (as the code does it): building the prompt never raises; when the
    LLM client cannot be created the exception propagates with no event;
    when the loop returns, one assistant-message event carrying the final
    content is emitted if that content is non-empty, and no event
    otherwise; when the loop call raises (also when a model setting
    repeats one of its keyword arguments), one run-failed event carrying
    [str(e)] is emitted and the exception propagates.  These are the only events
    of the orchestrator. *)
Theorem run_events {User Store} (E : env User Store) (cfg : config) (ctx : run_ctx) :
  exists system_prompt memory_store,
    snd (build_system_prompt E cfg ctx) = inr (system_prompt, memory_store) /\
    let model := select_model E cfg ctx in
    let loop :=
      run_agentic_loop E (turn_messages system_prompt ctx) (tools_arg (run_tools cfg)) model
        (cfg_model_settings cfg)
        (execute_tool E (build_tool_map (cfg_tools cfg)) memory_store ctx) in
    match get_llm_client_for_model E model with
    | inl e => snd (run E cfg ctx) = inl e /\ events (fst (run E cfg ctx)) = []
    | inr _ =>
        match snd loop with
        | inr res =>
            snd (run E cfg ctx)
              = inr {| rr_final_output :=
                         JObj [("response", match lr_final_content res with
                                            | Some c => JStr c | None => JNull end)];
                       rr_final_messages := lr_messages res |} /\
            events (fst (run E cfg ctx))
              = if truthy (lr_final_content res)
                then [AEmit ASSISTANT_MESSAGE
                        (JObj [("content", JStr (default EmptyString (lr_final_content res)))])]
                else []
        | inl e =>
            snd (run E cfg ctx) = inl e /\
            events (fst (run E cfg ctx)) = [AEmit RUN_FAILED (JObj [("error", JStr (str e))])]
        end
    end.
Proof.
  destruct (build_system_prompt_total E cfg ctx) as (sp & st & Hb).
  exists sp, st. split; [exact Hb|].
  pose proof (avoids_events _ (build_system_prompt_no_emit E cfg ctx)) as Hne.
  pose proof (run_agentic_loop_no_emit E (turn_messages sp ctx) (tools_arg (run_tools cfg))
                (select_model E cfg ctx) (cfg_model_settings cfg)
                (execute_tool E (build_tool_map (cfg_tools cfg)) st ctx)
                (execute_tool_no_emit E _ _ _)) as Hd.
  apply avoids_events in Hd.
  unfold run.
  destruct (build_system_prompt E cfg ctx) as [t0 r0]; simpl in Hb, Hne; subst r0.
  cbv zeta. cbn [bind fst snd].
  destruct (get_llm_client_for_model E (select_model E cfg ctx)) as [e|u]; cbn [bind fst snd lift perform].
  - split; [reflexivity|]. unfold events in *. rewrite !List.filter_app, Hne. reflexivity.
  - destruct (run_agentic_loop E _ _ _ _ _) as [t1 [e|res]]; simpl in Hd |- *;
      [|destruct (truthy (lr_final_content res)); simpl];
      (split; [reflexivity|]); unfold events in *;
      repeat first [rewrite List.filter_app | rewrite Hne | rewrite Hd | progress simpl];
      reflexivity.
Qed.

(** C9 fails as stated: the loop returns successfully with an empty final
    content and no event is emitted. *)
Lemma run_silent_on_empty_answer :
  snd (run silent_env policy_cfg hi_ctx)
    = inr {| rr_final_output := JObj [("response", JStr EmptyString)]; rr_final_messages := [] |} /\
  events (fst (run silent_env policy_cfg hi_ctx)) = [].
Proof. split; vm_compute; reflexivity. Qed.

(* ------------------------------------------------------------------ *)
(** ** The configuration cache *)

(** Once [config] has been read, later reads give the same configuration
    and leave the runtime as it is, whatever the database holds by then;
    the first read of a fresh runtime evaluates [get_effective_config]. *)
Theorem runtime_config_cached {D DB} (get_effective_config : D -> DB -> config)
  (db db' : DB) (rt : agent_runtime D) :
  runtime_config get_effective_config db' (fst (runtime_config get_effective_config db rt))
    = runtime_config get_effective_config db rt /\
  snd (runtime_config get_effective_config db rt)
    = match rt_config rt with
      | Some c => c
      | None => get_effective_config (rt_definition rt) db
      end /\
  (forall d : D, snd (runtime_config get_effective_config db (new_runtime d))
                 = get_effective_config d db).
Proof.
  destruct rt as [d [c|]]; unfold runtime_config; simpl; repeat split; reflexivity.
Qed.

(** After [refresh_config], whatever was cached, the next read of
    [config] is [get_effective_config] of the reloaded definition. *)
Theorem refresh_then_config {D DB} (get_effective_config : D -> DB -> config)
  (refresh_from_db : D -> DB -> D) (db : DB) (rt : agent_runtime D) :
  rt_config (refresh_config refresh_from_db db rt) = None /\
  runtime_config get_effective_config db (refresh_config refresh_from_db db rt)
    = (mk_runtime (refresh_from_db (rt_definition rt) db)
                  (Some (get_effective_config (refresh_from_db (rt_definition rt) db) db)),
       get_effective_config (refresh_from_db (rt_definition rt) db) db).
Proof. split; reflexivity. Qed.

(* ------------------------------------------------------------------ *)
(** ** Branding *)

Lemma assoc_dict_set (k k' : string) (v : json) (d : list (string * json)) :
  assoc k (dict_set k' v d) = if String.eqb k k' then Some v else assoc k d.
Proof.
  induction d as [|[k'' v''] d IH]; simpl.
  - destruct (String.eqb k k'); reflexivity.
  - destruct (String.eqb_spec k' k'') as [<-|Hne]; simpl.
    + destruct (String.eqb k k'); reflexivity.
    + rewrite IH. destruct (String.eqb_spec k k'') as [->|Hk]; [|reflexivity].
      destruct (String.eqb_spec k'' k'); [congruence|reflexivity].
Qed.

Lemma assoc_none_not_in (k : string) (b : list (string * json)) :
  k ∉ map fst b -> assoc k b = None.
Proof.
  induction b as [|[k' v'] b IH]; simpl; intros Hn; [reflexivity|].
  destruct (String.eqb_spec k k') as [->|Hk].
  - exfalso. apply Hn. left.
  - apply IH. intros Hi. apply Hn. by right.
Qed.

Lemma assoc_dict_merge (a b : list (string * json)) (k : string) :
  NoDup (map fst b) ->
  assoc k (dict_merge a b) = match assoc k b with Some v => Some v | None => assoc k a end.
Proof.
  unfold dict_merge. revert a. induction b as [|[k' v'] b IH]; intros a Hb; simpl; [reflexivity|].
  apply NoDup_cons in Hb as [Hk' Hb].
  rewrite IH by exact Hb. rewrite assoc_dict_set.
  destruct (String.eqb_spec k k') as [->|Hk]; [|reflexivity].
  by rewrite assoc_none_not_in.
Qed.

Lemma get_branding_merge (u : list (string * json)) :
  get_branding (Some u) = dict_merge DEFAULT_BRANDING (map branding_value u).
Proof.
  unfold get_branding, dict_merge. simpl. generalize DEFAULT_BRANDING as acc.
  induction u as [|[k v] u IH]; intros acc; simpl; [reflexivity|].
  rewrite IH. f_equal. unfold branding_value. simpl.
  destruct (String.eqb_spec k "colors") as [->|]; simpl; [|reflexivity].
  by destruct (is_dict v).
Qed.

Lemma assoc_map_branding_value (k : string) (u : list (string * json)) :
  assoc k (map branding_value u)
    = option_map (fun v => snd (branding_value (k, v))) (assoc k u).
Proof.
  induction u as [|[k' v] u IH]; simpl; [reflexivity|].
  destruct (String.eqb_spec k k') as [->|]; [reflexivity | exact IH].
Qed.

Lemma map_fst_branding_value (u : list (string * json)) :
  map fst (map branding_value u) = map fst u.
Proof. rewrite map_map. reflexivity. Qed.

(** [get_branding]: without the setting it is [DEFAULT_BRANDING]; with a
    setting, each key the setting has takes the setting's value, except a
    dict under ["colors"], which becomes the default colors updated by it;
    every other key keeps its default. *)
Theorem get_branding_lookup (u : list (string * json)) (Hu : NoDup (map fst u)) (k : string) :
  get_branding None = DEFAULT_BRANDING /\
  assoc k (get_branding (Some u))
    = match assoc k u with
      | Some v => Some (if String.eqb k "colors" && is_dict v
                        then JObj (dict_merge DEFAULT_COLORS (obj_fields v)) else v)
      | None => assoc k DEFAULT_BRANDING
      end.
Proof.
  split; [reflexivity|].
  rewrite get_branding_merge, assoc_dict_merge by (by rewrite map_fst_branding_value).
  rewrite assoc_map_branding_value. by destruct (assoc k u).
Qed.

Lemma get_branding_lookup_witness :
  NoDup (map fst demo_branding) /\
  assoc "app_name" (get_branding (Some demo_branding)) = Some (JStr "My Agent Studio").
Proof.
  assert (Hn : NoDup (map fst demo_branding)) by (repeat constructor; set_solver).
  split; [exact Hn|].
  rewrite (proj2 (get_branding_lookup demo_branding Hn "app_name")). reflexivity.
Defined.

(** The colors are merged key by key: with a dict under ["colors"], each
    color the setting names takes its value and every default color the
    setting does not name keeps its default. *)
Theorem get_branding_colors (u fs : list (string * json))
  (Hu : NoDup (map fst u)) (Hfs : NoDup (map fst fs))
  (Hc : assoc "colors" u = Some (JObj fs)) :
  exists merged,
    assoc "colors" (get_branding (Some u)) = Some (JObj merged) /\
    forall c, assoc c merged
              = match assoc c fs with Some v => Some v | None => assoc c DEFAULT_COLORS end.
Proof.
  exists (dict_merge DEFAULT_COLORS fs). split.
  - rewrite (proj2 (get_branding_lookup u Hu "colors")), Hc. reflexivity.
  - intros c. by apply assoc_dict_merge.
Qed.

Lemma get_branding_colors_witness :
  exists merged,
    assoc "colors" (get_branding (Some demo_branding)) = Some (JObj merged) /\
    assoc "accent" merged = Some (JStr "#4fc4f7").
Proof.
  destruct (get_branding_colors demo_branding [("primary", JStr "#112233"); ("brand", JStr "#445566")])
    as [merged [H1 H2]];
    [repeat constructor; set_solver | repeat constructor; set_solver | reflexivity |].
  exists merged. split; [exact H1|]. rewrite H2. reflexivity.
Defined.

Lemma dict_set_keeps (k k' : string) (v : json) (d : list (string * json)) :
  is_Some (assoc k d) -> is_Some (assoc k (dict_set k' v d)).
Proof. rewrite assoc_dict_set. by destruct (String.eqb k k'). Qed.

Lemma get_branding_keeps (s : option (list (string * json))) (k : string) :
  is_Some (assoc k DEFAULT_BRANDING) -> is_Some (assoc k (get_branding s)).
Proof.
  unfold get_branding. generalize DEFAULT_BRANDING as acc.
  induction (default [] s) as [|[k' v] u IH]; intros acc H; simpl; [exact H|].
  apply IH. destruct (String.eqb k' "colors" && is_dict v); by apply dict_set_keeps.
Qed.

(** [branding_context_processor] never raises [KeyError]: whatever the
    setting holds, the six keys it reads are in the merged branding, and it
    returns them under their [studio_] names with the whole branding. *)
Theorem branding_context_processor_total (s : option (list (string * json))) :
  exists app_name logo_svg show_app_name colors chat_primary_color custom_css,
    assoc "app_name" (get_branding s) = Some app_name /\
    assoc "logo_svg" (get_branding s) = Some logo_svg /\
    assoc "show_app_name" (get_branding s) = Some show_app_name /\
    assoc "colors" (get_branding s) = Some colors /\
    assoc "chat_primary_color" (get_branding s) = Some chat_primary_color /\
    assoc "custom_css" (get_branding s) = Some custom_css /\
    branding_context_processor s
      = Some [("studio_branding", JObj (get_branding s)); ("studio_app_name", app_name);
              ("studio_logo_svg", logo_svg); ("studio_show_app_name", show_app_name);
              ("studio_colors", colors); ("studio_chat_primary_color", chat_primary_color);
              ("studio_custom_css", custom_css)].
Proof.
  destruct (get_branding_keeps s "app_name" ltac:(by eexists)) as [a Ha].
  destruct (get_branding_keeps s "logo_svg" ltac:(by eexists)) as [l Hl].
  destruct (get_branding_keeps s "show_app_name" ltac:(by eexists)) as [w Hw].
  destruct (get_branding_keeps s "colors" ltac:(by eexists)) as [c Hc].
  destruct (get_branding_keeps s "chat_primary_color" ltac:(by eexists)) as [p Hp].
  destruct (get_branding_keeps s "custom_css" ltac:(by eexists)) as [x Hx].
  exists a, l, w, c, p, x. repeat split; try assumption.
  unfold branding_context_processor. rewrite Ha, Hl, Hw, Hc, Hp, Hx. reflexivity.
Qed.

(* ------------------------------------------------------------------ *)
(** ** Tool execution *)

Lemma execute_tool__found {User Store} (E : env User Store)
  (tool_map : gmap string tool_info) (ctx : run_ctx)
  (tool_name : string) (tool_args : list (string * json)) (i : tool_info) (fp : string) :
  tool_map !! tool_name = Some i -> ti_function_path i = Some fp -> fp <> EmptyString ->
  execute_tool_ E tool_name tool_args tool_map ctx
    = ([AExecute fp tool_args (ctx_run_id ctx) (ctx_user_id ctx) (ti_tool_id i)],
       inr (match execute E fp tool_args (ctx_run_id ctx) (ctx_user_id ctx) (ti_tool_id i) with
            | inr (XStr s) => s
            | inr (XJson j) => dumps j
            | inr (XOther ty) =>
                error_payload ("Object of type " +:+ ty +:+ " is not JSON serializable")
            | inl e => error_payload (str e)
            end)).
Proof.
  intros Hi Hp Hfp. unfold execute_tool_. rewrite Hi. simpl. rewrite Hp.
  assert (truthy (Some fp) = true) as ->.
  { simpl. destruct (String.eqb_spec fp EmptyString); [contradiction | reflexivity]. }
  simpl. destruct (execute E _ _ _ _ _) as [e|[s|j|ty]]; reflexivity.
Qed.

Lemma execute_tool_other {User Store} (E : env User Store)
  (tool_map : gmap string tool_info) (memory_store : option Store) (ctx : run_ctx)
  (tool_name : string) (tool_args : list (string * json)) :
  tool_name <> "remember" ->
  execute_tool E tool_map memory_store ctx tool_name tool_args
    = execute_tool_ E tool_name tool_args tool_map ctx.
Proof.
  intros Hn. unfold execute_tool.
  destruct (String.eqb_spec tool_name "remember"); [contradiction | reflexivity].
Qed.

(** A tool whose map entry has a non-empty [function_path] is executed
    exactly once, with that path, the call's arguments, the run id, the
    caller's [user_id] and the entry's [tool_id]; a string result is
    returned as it is, any other JSON value is serialised with
    [json.dumps], and a value [json.dumps] cannot serialise, like an
    exception of the executor, comes back as an [{"error": ...}] payload. *)
Theorem execute_tool_result {User Store} (E : env User Store)
  (tool_map : gmap string tool_info) (memory_store : option Store) (ctx : run_ctx)
  (tool_name : string) (tool_args : list (string * json)) (i : tool_info) (fp : string)
  (Hname : tool_name <> "remember") (Hi : tool_map !! tool_name = Some i)
  (Hp : ti_function_path i = Some fp) (Hfp : fp <> EmptyString) :
  fst (execute_tool E tool_map memory_store ctx tool_name tool_args)
    = [AExecute fp tool_args (ctx_run_id ctx) (ctx_user_id ctx) (ti_tool_id i)] /\
  snd (execute_tool E tool_map memory_store ctx tool_name tool_args)
    = inr (match execute E fp tool_args (ctx_run_id ctx) (ctx_user_id ctx) (ti_tool_id i) with
           | inr (XStr s) => s
           | inr (XJson j) => dumps j
           | inr (XOther ty) =>
               error_payload ("Object of type " +:+ ty +:+ " is not JSON serializable")
           | inl e => error_payload (str e)
           end).
Proof.
  rewrite execute_tool_other by exact Hname.
  rewrite (execute_tool__found E tool_map ctx tool_name tool_args i fp Hi Hp Hfp).
  split; reflexivity.
Qed.

Lemma execute_tool_result_witness :
  snd (execute_tool ok_env (build_tool_map [named_tool "lookup"]) None hi_ctx "lookup" [])
    = inr "ok".
Proof.
  rewrite (proj2 (execute_tool_result ok_env (build_tool_map [named_tool "lookup"]) None hi_ctx
                    "lookup" [] (tool_info_of (named_tool "lookup")) "tools.lookup"
                    ltac:(discriminate) ltac:(reflexivity) ltac:(reflexivity) ltac:(discriminate))).
  reflexivity.
Defined.

(** The tools of the configuration, seen through the tool map that [run]
    builds: a call to a name no configured tool declares (or to the empty
    name), or whose last declaring tool has no [_meta.function_path] or an
    empty one, gets the "no function_path configured" payload and calls
    nothing; otherwise the executor is called once, with the path and the
    [tool_id] of the last tool declaring that name. *)
Theorem configured_tool_dispatch {User Store} (E : env User Store)
  (ts : list tool_spec) (memory_store : option Store) (ctx : run_ctx)
  (tool_name : string) (tool_args : list (string * json))
  (Hname : tool_name <> "remember") :
  let declared := if String.eqb tool_name EmptyString then None else last_named tool_name ts in
  let path := declared ≫= fun t => meta_function_path (default empty_meta (t_meta t)) in
  (truthy path = false ->
   execute_tool E (build_tool_map ts) memory_store ctx tool_name tool_args
     = ([], inr (no_function_path_payload tool_name))) /\
  (forall t fp, declared = Some t ->
     meta_function_path (default empty_meta (t_meta t)) = Some fp -> fp <> EmptyString ->
     fst (execute_tool E (build_tool_map ts) memory_store ctx tool_name tool_args)
       = [AExecute fp tool_args (ctx_run_id ctx) (ctx_user_id ctx)
                   (meta_tool_id (default empty_meta (t_meta t)))]).
Proof.
  intros declared path.
  rewrite execute_tool_other by exact Hname.
  assert (Hl : build_tool_map ts !! tool_name = option_map tool_info_of declared).
  { unfold build_tool_map. rewrite build_tool_map_loop_lookup. subst declared.
    destruct (String.eqb tool_name EmptyString); [reflexivity|].
    destruct (last_named tool_name ts); reflexivity. }
  split.
  - intros Hp. unfold execute_tool_. rewrite Hl.
    subst path. destruct declared as [t|]; simpl in *; [|reflexivity].
    unfold tool_info_of. simpl. rewrite Hp. reflexivity.
  - intros t fp Hd Hp Hfp. rewrite Hd in Hl. simpl in Hl.
    rewrite (execute_tool__found E _ ctx tool_name tool_args (tool_info_of t) fp Hl) by
      (unfold tool_info_of; simpl; assumption).
    reflexivity.
Qed.

Lemma configured_tool_dispatch_witness :
  execute_tool ok_env (build_tool_map [named_tool "lookup"]) None hi_ctx "search" []
    = ([], inr (no_function_path_payload "search")).
Proof.
  apply (proj1 (configured_tool_dispatch ok_env [named_tool "lookup"] None hi_ctx "search" []
                  ltac:(discriminate))).
  reflexivity.
Defined.

(** A [remember] call with a store whose [key] or [value] argument is
    present but not a string makes [.strip()] raise outside the handler's
    [try]: the exception leaves the tool callback and nothing is stored. *)
Theorem remember_non_string_argument {User Store} (E : env User Store)
  (tool_map : gmap string tool_info) (st : Store) (ctx : run_ctx)
  (tool_args : list (string * json))
  (Hbad : arg_text "key" tool_args = None \/ arg_text "value" tool_args = None) :
  exists e, execute_tool E tool_map (Some st) ctx "remember" tool_args = ([], inl e).
Proof.
  unfold execute_tool. simpl. unfold execute_remember_tool, get_stripped, arg_text in *.
  destruct (assoc "key" tool_args) as [[]|], (assoc "value" tool_args) as [[]|];
    simpl in *; destruct Hbad as [Hb|Hb]; try discriminate; eexists; reflexivity.
Qed.

Lemma remember_non_string_argument_witness :
  exists e, execute_tool ok_env ∅ (Some "42/c-1") signed_in_ctx "remember"
              [("key", JStr "age"); ("value", JInt 36)] = ([], inl e).
Proof.
  apply (remember_non_string_argument ok_env ∅ "42/c-1" signed_in_ctx
           [("key", JStr "age"); ("value", JInt 36)]).
  right. reflexivity.
Defined.

(* ------------------------------------------------------------------ *)
(** ** Memory *)

(** Recalling memories never raises: it asks the store for all memories;
    a failure there, or no memory at all, gives [""] without formatting;
    otherwise the memories are formatted once, and a failure of the
    formatting also gives [""]. *)
Theorem recall_memories_outcome {User Store} (E : env User Store) (st : Store) :
  recall_memories E st
    = match recall_all E st with
      | inl _ | inr [] => ([ARecallAll], inr EmptyString)
      | inr memories =>
          ([ARecallAll; AFormat],
           inr (match format_for_prompt E st memories with
                | inr s => s
                | inl _ => EmptyString
                end))
      end.
Proof.
  unfold recall_memories. simpl.
  destruct (recall_all E st) as [e|[|m ms]]; simpl; try reflexivity.
  destruct (format_for_prompt E st _); reflexivity.
Qed.

(** With a non-empty [user_id] and conversation id, the store is built
    by looking the user up and then constructing the conversation's
    store, in this order, and it is the store returned. *)
Theorem get_memory_store_success {User Store} (E : env User Store) (ctx : run_ctx)
  (user_id conversation_id : string) (u : User) (st : Store)
  (Hu : ctx_user_id ctx = Some user_id) (Hc : ctx_conversation_id ctx = Some conversation_id)
  (Hu' : user_id <> EmptyString) (Hc' : conversation_id <> EmptyString)
  (Hg : get_user E user_id = inr u) (Hn : new_store E u conversation_id = inr st) :
  get_memory_store E ctx = ([AGetUser user_id; ANewStore conversation_id], inr (Some st)).
Proof.
  unfold get_memory_store. rewrite Hu, Hc.
  assert (truthy (Some user_id) = true) as ->.
  { simpl. destruct (String.eqb_spec user_id EmptyString); [contradiction | reflexivity]. }
  assert (truthy (Some conversation_id) = true) as ->.
  { simpl. destruct (String.eqb_spec conversation_id EmptyString); [contradiction | reflexivity]. }
  simpl. rewrite Hg. simpl. rewrite Hn. reflexivity.
Qed.

Lemma get_memory_store_success_witness :
  get_memory_store ok_env signed_in_ctx = ([AGetUser "42"; ANewStore "c-1"], inr (Some "42/c-1")).
Proof.
  apply (get_memory_store_success ok_env signed_in_ctx "42" "c-1" "42" "42/c-1");
    first [reflexivity | discriminate].
Defined.

(** With [extra.memory_enabled] false the turn makes no memory call at
    all, whatever the context: building the prompt makes the retrieval
    calls only, the prompt has the knowledge and RAG layers only, the
    store is absent (so a [remember] call gets the "memory not available"
    payload), and the memory tool is not offered to the model. *)
Theorem memory_disabled {User Store} (E : env User Store) (cfg : config) (ctx : run_ctx)
  (Hoff : memory_enabled cfg = false) :
  (exists rag_context,
     snd (retrieve_rag_knowledge E cfg ctx) = inr rag_context /\
     build_system_prompt E cfg ctx
       = (fst (retrieve_rag_knowledge E cfg ctx),
          inr (layered_prompt (default EmptyString (cfg_system_prompt cfg))
                 [build_knowledge_context (cfg_knowledge cfg); rag_context], None))) /\
  run_tools cfg = build_tool_schemas (cfg_tools cfg).
Proof.
  split.
  - destruct (retrieve_rag_knowledge_total E cfg ctx) as [rc Hrc].
    exists rc. split; [exact Hrc|].
    unfold build_system_prompt. rewrite Hoff.
    destruct (retrieve_rag_knowledge E cfg ctx) as [t r]; simpl in Hrc; subst r.
    cbn [bind fst snd ret]. rewrite !layer_step, app_nil_r. reflexivity.
  - unfold run_tools. rewrite Hoff. apply app_nil_r.
Qed.

Lemma memory_disabled_witness :
  build_system_prompt ok_env policy_cfg signed_in_ctx = ([], inr (policy_prompt, None)).
Proof.
  destruct (proj1 (memory_disabled ok_env policy_cfg signed_in_ctx ltac:(reflexivity)))
    as (rc & Hrc & Hb).
  rewrite Hb. vm_compute in Hrc. injection Hrc as <-. vm_compute. reflexivity.
Defined.

(* ------------------------------------------------------------------ *)
(** ** The agentic loop call *)



(** The tools handed to the loop are the configured tools in order, each
    cut down to its [type] (["function"] by default) and [function] ([{}]
    by default), followed by the memory tool when memory is enabled; the
    loop gets [None] instead exactly when memory is disabled and the
    configuration declares no tool. *)
Theorem loop_tools (cfg : config) :
  run_tools cfg
    = map tool_schema (cfg_tools cfg)
      ++ (if memory_enabled cfg then [MEMORY_TOOL_SCHEMA] else []) /\
  (tools_arg (run_tools cfg) = None <-> memory_enabled cfg = false /\ cfg_tools cfg = []).
Proof.
  unfold run_tools, build_tool_schemas.
  rewrite build_tool_schemas_loop_spec. simpl.
  split; [reflexivity|].
  destruct (cfg_tools cfg), (memory_enabled cfg); simpl; split;
    try (intros [? ?]; discriminate); try discriminate; auto.
Qed.

(** The model is [ctx.params["model"]] when non-empty, otherwise the
    configured [model] when non-empty, otherwise [DEFAULT_MODEL]; so it is
    never empty when [DEFAULT_MODEL] is not. *)
Theorem select_model_choice {User Store} (E : env User Store) (cfg : config) (ctx : run_ctx) :
  select_model E cfg ctx
    = (if truthy (ctx_params_model ctx) then default EmptyString (ctx_params_model ctx)
       else if truthy (cfg_model cfg) then default EmptyString (cfg_model cfg)
       else DEFAULT_MODEL E) /\
  (DEFAULT_MODEL E <> EmptyString -> select_model E cfg ctx <> EmptyString).
Proof.
  assert (Heq : select_model E cfg ctx
    = (if truthy (ctx_params_model ctx) then default EmptyString (ctx_params_model ctx)
       else if truthy (cfg_model cfg) then default EmptyString (cfg_model cfg)
       else DEFAULT_MODEL E)).
  { unfold select_model, py_or.
    destruct (ctx_params_model ctx) as [p|], (cfg_model cfg) as [c|]; simpl;
      repeat match goal with |- context [String.eqb ?x EmptyString] =>
               destruct (String.eqb x EmptyString) end; reflexivity. }
  split; [exact Heq|]. intros Hd. rewrite Heq.
  destruct (ctx_params_model ctx) as [p|], (cfg_model cfg) as [c|]; simpl;
    repeat match goal with |- context [String.eqb ?x EmptyString] =>
             destruct (String.eqb_spec x EmptyString) end; simpl; assumption.
Qed.

Lemma select_model_choice_witness :
  select_model ok_env policy_cfg hi_ctx <> EmptyString.
Proof. apply (proj2 (select_model_choice ok_env policy_cfg hi_ctx)). discriminate. Defined.

(* ------------------------------------------------------------------ *)
(** ** Knowledge from two lists *)

Lemma string_app_assoc (a b c : string) : (a +:+ b) +:+ c = a +:+ (b +:+ c).
Proof. induction a as [|x a IH]; [reflexivity | exact (f_equal (String x) IH)]. Qed.

Lemma string_app_nil_r (a : string) : a +:+ EmptyString = a.
Proof. induction a as [|x a IH]; [reflexivity | exact (f_equal (String x) IH)]. Qed.

Lemma concat_cons_prefix (sep x : string) (l : list string) :
  exists rest, String.concat sep (x :: l) = x +:+ rest.
Proof.
  destruct l as [|y l]; simpl.
  - exists EmptyString. by rewrite string_app_nil_r.
  - eexists. reflexivity.
Qed.

Lemma concat_app_nonempty (sep : string) (l1 l2 : list string) :
  l1 <> [] -> l2 <> [] ->
  String.concat sep (l1 ++ l2) = String.concat sep l1 +:+ sep +:+ String.concat sep l2.
Proof.
  intros H1 H2. induction l1 as [|x l1 IH]; [contradiction|].
  destruct l1 as [|y l1].
  - simpl. destruct l2; [contradiction | reflexivity].
  - assert (Hx : forall z zs, String.concat sep (x :: z :: zs)
                              = x +:+ sep +:+ String.concat sep (z :: zs)) by reflexivity.
    specialize (IH ltac:(discriminate)). cbn [app] in IH |- *.
    rewrite !Hx, IH. by rewrite !string_app_assoc.
Qed.

Lemma concat_blocks_nonempty (ks : list knowledge) :
  map knowledge_block ks <> [] -> String.concat (nl +:+ nl) (map knowledge_block ks) <> EmptyString.
Proof.
  destruct ks as [|k ks]; [contradiction|]. intros _.
  destruct (concat_cons_prefix (nl +:+ nl) (knowledge_block k) (map knowledge_block ks))
    as [rest Hr].
  simpl map. rewrite Hr. unfold knowledge_block. discriminate.
Qed.

(** The knowledge context of two lists of knowledge entries is the
    context of the first followed by that of the second, separated by a
    blank line; an empty context on either side adds nothing. *)
Theorem build_knowledge_context_app (ks1 ks2 : list knowledge) :
  build_knowledge_context (ks1 ++ ks2)
    = if String.eqb (build_knowledge_context ks1) EmptyString
      then build_knowledge_context ks2
      else add_layer (build_knowledge_context ks1) (build_knowledge_context ks2).
Proof.
  unfold build_knowledge_context. rewrite !knowledge_parts_spec. simpl.
  rewrite List.filter_app, map_app.
  destruct (List.filter always_with_content ks1) as [|k1 f1] eqn:E1; [reflexivity|].
  pose proof (concat_blocks_nonempty (k1 :: f1) ltac:(discriminate)) as Hn1.
  destruct (String.eqb_spec (String.concat (nl +:+ nl) (map knowledge_block (k1 :: f1)))
              EmptyString) as [Hc|_]; [contradiction|].
  unfold add_layer.
  destruct (List.filter always_with_content ks2) as [|k2 f2] eqn:E2.
  - simpl map at 3. by rewrite app_nil_r.
  - pose proof (concat_blocks_nonempty (k2 :: f2) ltac:(discriminate)) as Hn2.
    destruct (String.eqb_spec (String.concat (nl +:+ nl) (map knowledge_block (k2 :: f2)))
                EmptyString) as [Hc|_]; [contradiction|].
    apply concat_app_nonempty; discriminate.
Qed.
